(** * The 1Password vault resource of the Terraform provider

    A shallow embedding of [internal/provider/onepassword_vault_resource.go]:
    the composite-identifier codec, the [Configure] hook and the five
    lifecycle handlers ([Create], [Read], [Update], [Delete], [ImportState]),
    followed by the properties the specification states about them.

    Go strings are byte sequences and are modelled as [string]; the
    handlers mutate a response object and talk to a remote service through
    [r.client], which is modelled by explicit state passing. *)

From Stdlib Require Import String Ascii List Bool Arith Lia.
Import ListNotations.
Open Scope list_scope.
Open Scope string_scope.

Set Implicit Arguments.

(** ** [strings]: the two library functions the codec relies on *)

Module strings.

(** [strings.Count(s, sep)] for a one-byte separator. *)
Fixpoint Count (s : string) (sep : ascii) : nat :=
  match s with
  | EmptyString => 0
  | String c rest =>
      if Ascii.eqb c sep then S (Count rest sep) else Count rest sep
  end.

(** [strings.Split(s, sep)] for a one-byte separator (the resource only
    ever splits on ["/"]): the substrings between the separators, in
    order; a string without separator is returned as its only element. *)
Fixpoint Split (s : string) (sep : ascii) : list string :=
  match s with
  | EmptyString => [EmptyString]
  | String c rest =>
      if Ascii.eqb c sep then EmptyString :: Split rest sep
      else match Split rest sep with
           | [] => [String c EmptyString]
           | hd :: tl => String c hd :: tl
           end
  end.

End strings.

(** ** The identifier codec *)

Module model.

(** [model.Vault]: the fields of the domain entity the resource reads. *)
Record Vault : Type := { ID : string; Name : string; Description : string }.

End model.

(** Modelled from the spec: [vaultTerraformID] is called by the handlers but
    defined in another file of the provider package. Section 4.1 gives it as
    [compose(uuid) = "vaults/<uuid>"], applied to the vault's [ID]. *)
Definition vaultTerraformID (vault : model.Vault) : string :=
  "vaults/" ++ model.ID vault.

Definition vaultUUIDFromTerraformID (tfID : string) : string :=
  let elements := strings.Split tfID "/"%char in
  if negb (Nat.eqb (length elements) 2) then ""
  else nth 1 elements "".

(** ** [diag]: the diagnostics accumulator of the plugin framework *)

Module diag.

Inductive Severity : Type := SeverityError | SeverityWarning.

Record Diagnostic : Type :=
  { severity : Severity; Summary : string; Detail : string }.

Definition Diagnostics : Type := list Diagnostic.

Definition NewErrorDiagnostic (summary detail : string) : Diagnostic :=
  {| severity := SeverityError; Summary := summary; Detail := detail |}.

Definition isError (d : Diagnostic) : bool :=
  match severity d with SeverityError => true | SeverityWarning => false end.

Definition Severity_eqb (a b : Severity) : bool :=
  match a, b with
  | SeverityError, SeverityError | SeverityWarning, SeverityWarning => true
  | _, _ => false
  end.

(** [Diagnostic.Equal]: same severity, summary and detail. *)
Definition Equal (a b : Diagnostic) : bool :=
  Severity_eqb (severity a) (severity b)
  && String.eqb (Summary a) (Summary b)
  && String.eqb (Detail a) (Detail b).

Definition Contains (diags : Diagnostics) (d : Diagnostic) : bool :=
  existsb (Equal d) diags.

(** [Diagnostics.Append]: a diagnostic already in the collection is
    skipped, any other is added at the end. *)
Fixpoint Append (diags : Diagnostics) (new : list Diagnostic) : Diagnostics :=
  match new with
  | [] => diags
  | d :: rest =>
      if Contains diags d then Append diags rest
      else Append (diags ++ [d])%list rest
  end.

Definition AddError (diags : Diagnostics) (summary detail : string)
  : Diagnostics :=
  Append diags [NewErrorDiagnostic summary detail].

Definition HasError (diags : Diagnostics) : bool := existsb isError diags.

Definition ErrorsCount (diags : Diagnostics) : nat :=
  length (filter isError diags).

End diag.

(** ** [types] and the resource model *)

Module types.

(** [types.String]: a framework string is null, unknown or known. *)
Inductive String : Type :=
| StringNull
| StringUnknown
| StringValue (s : string).

(** [ValueString] is the known value, and [""] for null or unknown. *)
Definition ValueString (v : String) : string :=
  match v with
  | StringValue s => s
  | StringNull | StringUnknown => ""
  end.

End types.

(** [OnePasswordVaultResourceModel], with its [tfsdk] tags as comments. *)
Record OnePasswordVaultResourceModel : Type :=
  { ID : types.String;           (* tfsdk:"id" *)
    UUID : types.String;         (* tfsdk:"uuid" *)
    Name : types.String;         (* tfsdk:"name" *)
    Description : types.String   (* tfsdk:"description" *) }.

Module tfsdk.

(** What the request hands to the handler: [Plan.Get] and [State.Get]
    decode the orchestrator's value into the model and report the
    diagnostics of the decoding. The decoding itself belongs to the
    framework, so a request carries its outcome. *)
Record Data : Type :=
  { Raw : OnePasswordVaultResourceModel; GetDiags : diag.Diagnostics }.

Definition Get (d : Data) : OnePasswordVaultResourceModel * diag.Diagnostics :=
  (Raw d, GetDiags d).

(** The state of the response: no row ([None], a null object) or a row
    with the four attributes of the schema. *)
Definition State : Type := option OnePasswordVaultResourceModel.

(** [State.Set(ctx, &model)]: the model has the shape of the schema, so
    the row is replaced and no diagnostic is produced. *)
Definition Set_ (s : State) (m : OnePasswordVaultResourceModel)
  : State * diag.Diagnostics :=
  (Some m, []).

Definition RemoveResource (s : State) : State := None.

(** The row [SetAttribute] starts from when the state is null: every
    attribute null. *)
Definition nullRow : OnePasswordVaultResourceModel :=
  {| ID := types.StringNull; UUID := types.StringNull;
     Name := types.StringNull; Description := types.StringNull |}.

(** [State.SetAttribute(ctx, path.Root(name), value)] for a Go string
    value: the attribute with that tag is overwritten, the others are
    kept; a path outside the schema is reported and nothing is written. *)
Definition SetAttribute (s : State) (root : string) (val : string)
  : State * diag.Diagnostics :=
  let row := match s with Some m => m | None => nullRow end in
  let v := types.StringValue val in
  if String.eqb root "id" then
    (Some {| ID := v; UUID := UUID row; Name := Name row;
             Description := Description row |}, [])
  else if String.eqb root "uuid" then
    (Some {| ID := ID row; UUID := v; Name := Name row;
             Description := Description row |}, [])
  else if String.eqb root "name" then
    (Some {| ID := ID row; UUID := UUID row; Name := v;
             Description := Description row |}, [])
  else if String.eqb root "description" then
    (Some {| ID := ID row; UUID := UUID row; Name := Name row;
             Description := v |}, [])
  else
    (s, [diag.NewErrorDiagnostic "State Write Error"
           ("no attribute at path " ++ root)]).

End tfsdk.


(** ** [resource]: the requests and responses of the handlers *)

Module resource.

Record CreateRequest : Type := { CreateRequest_Plan : tfsdk.Data }.
Record ReadRequest : Type := { ReadRequest_State : tfsdk.Data }.
Record UpdateRequest : Type := { UpdateRequest_Plan : tfsdk.Data }.
Record DeleteRequest : Type := { DeleteRequest_State : tfsdk.Data }.
Record ImportStateRequest : Type := { ImportStateRequest_ID : string }.

(** [CreateResponse], [ReadResponse], [UpdateResponse], [DeleteResponse]
    and [ImportStateResponse] all carry the two fields the handlers use. *)
Record Response : Type :=
  { State : tfsdk.State; Diagnostics : diag.Diagnostics }.

Record ConfigureResponse : Type :=
  { ConfigureResponse_Diagnostics : diag.Diagnostics }.

(** [resp.Diagnostics.Append(...)] and [resp.Diagnostics.AddError(...)]
    on the response the handler was given. *)
Definition AppendDiagnostics (resp : Response) (new : diag.Diagnostics)
  : Response :=
  {| State := State resp;
     Diagnostics := diag.Append (Diagnostics resp) new |}.

Definition AddError (resp : Response) (summary detail : string) : Response :=
  {| State := State resp;
     Diagnostics := diag.AddError (Diagnostics resp) summary detail |}.

Definition WithState (resp : Response) (s : tfsdk.State) : Response :=
  {| State := s; Diagnostics := Diagnostics resp |}.

End resource.

(** Field assignments on the model, as [plan.ID = ...] in the handlers. *)
Definition set_ID (m : OnePasswordVaultResourceModel) (v : types.String) :=
  {| ID := v; UUID := UUID m; Name := Name m; Description := Description m |}.
Definition set_UUID (m : OnePasswordVaultResourceModel) (v : types.String) :=
  {| ID := ID m; UUID := v; Name := Name m; Description := Description m |}.
Definition set_Name (m : OnePasswordVaultResourceModel) (v : types.String) :=
  {| ID := ID m; UUID := UUID m; Name := v; Description := Description m |}.
Definition set_Description (m : OnePasswordVaultResourceModel)
  (v : types.String) :=
  {| ID := ID m; UUID := UUID m; Name := Name m; Description := v |}.

(** ** Predicates used by the properties *)

(** The invariant of a state row: [id] and [uuid] are known and
    [id == "vaults/" + uuid]. *)
Definition rowInvariant (m : OnePasswordVaultResourceModel) : bool :=
  match ID m, UUID m with
  | types.StringValue id, types.StringValue uuid =>
      String.eqb id ("vaults/" ++ uuid)
  | _, _ => false
  end.

(** A state is well formed when it holds no row or a row satisfying the
    invariant. *)
Definition stateInvariant (s : tfsdk.State) : bool :=
  match s with
  | None => true
  | Some row => rowInvariant row
  end.

(** [sub] occurs in [s]. *)
Definition IsInfix (sub s : string) : Prop :=
  exists pre post, s = pre ++ sub ++ post.

(** The diagnostics of a response once the decoding of the request has
    been appended: what every handler computes first. *)
Definition decoded (resp : resource.Response) (d : tfsdk.Data)
  : resource.Response :=
  resource.AppendDiagnostics resp (snd (tfsdk.Get d)).

(** The row [SetAttribute] updates: the one in the state, or the null row. *)
Definition rowOf (s : tfsdk.State) : OnePasswordVaultResourceModel :=
  match s with Some m => m | None => tfsdk.nullRow end.

(** The row the handlers build from a vault the remote returned. *)
Definition vaultRow (vault : model.Vault) : OnePasswordVaultResourceModel :=
  {| ID := types.StringValue (vaultTerraformID vault);
     UUID := types.StringValue (model.ID vault);
     Name := types.StringValue (model.Name vault);
     Description := types.StringValue (model.Description vault) |}.

(** The arguments of the remote calls, as the handlers build them from the
    decoded request. *)
Definition createArgument (req : resource.CreateRequest) : model.Vault :=
  let plan := tfsdk.Raw (resource.CreateRequest_Plan req) in
  {| model.ID := "";
     model.Name := types.ValueString (Name plan);
     model.Description := types.ValueString (Description plan) |}.

Definition readArgument (req : resource.ReadRequest) : string :=
  vaultUUIDFromTerraformID
    (types.ValueString (ID (tfsdk.Raw (resource.ReadRequest_State req)))).

Definition updateArgument (req : resource.UpdateRequest) : model.Vault :=
  let plan := tfsdk.Raw (resource.UpdateRequest_Plan req) in
  {| model.ID := types.ValueString (UUID plan);
     model.Name := types.ValueString (Name plan);
     model.Description := types.ValueString (Description plan) |}.

Definition deleteArgument (req : resource.DeleteRequest) : string :=
  types.ValueString (UUID (tfsdk.Raw (resource.DeleteRequest_State req))).

(** ** [schema]: the attribute declarations of the resource *)

Module schema.

(** [stringplanmodifier.UseStateForUnknown()] is the only plan modifier the
    resource declares. *)
Inductive PlanModifier : Type := UseStateForUnknown.

(** [schema.StringAttribute], with the fields the resource sets; a field
    the source leaves out has Go's zero value ([false], no default, no
    modifier). [Default] holds the string of [stringdefault.StaticString]. *)
Record StringAttribute : Type :=
  { MarkdownDescription : string;
    Required : bool;
    Optional : bool;
    Computed : bool;
    Default : option string;
    PlanModifiers : list PlanModifier }.

(** [schema.Schema]: the Go map of attributes is kept as the list of its
    entries, in the order of the source. *)
Record Schema : Type :=
  { Schema_MarkdownDescription : string;
    Attributes : list (string * StringAttribute) }.


End schema.

(** ** The resource and its handlers *)

Section Resource.

(** Go's [error]: the handlers format it with [%s], which prints
    [err.Error()], and [Read] classifies it. *)
Variable error : Type.
Variable Error : error -> string.

(** [isNotFoundError] lives in another file of the package; [Read] only
    branches on its answer, so it is a parameter here. *)
Variable isNotFoundError : error -> bool.

(** The state of the remote service behind the client. *)
Variable Remote : Type.

(** [onepassword.Client], restricted to the four operations the resource
    calls. A call returns a vault or an error, and the remote state after
    it. (A client that returns neither, a nil vault with a nil error, would
    make the handler dereference nil; such clients are not represented.) *)
Record Client : Type :=
  { CreateVault : model.Vault -> Remote -> (model.Vault + error) * Remote;
    GetVault : string -> Remote -> (model.Vault + error) * Remote;
    UpdateVault : model.Vault -> Remote -> (model.Vault + error) * Remote;
    DeleteVault : string -> Remote -> option error * Remote }.

(** [OnePasswordVaultResource]: [client] is nil until [Configure] sets it. *)
Record OnePasswordVaultResource : Type := { client : option Client }.

(** The remote calls a handler has made, in order. *)
Inductive Call : Type :=
| CallCreateVault (vault : model.Vault)
| CallGetVault (uuid : string)
| CallUpdateVault (vault : model.Vault)
| CallDeleteVault (uuid : string).

Record World : Type := { remote : Remote; calls : list Call }.

(** A handler runs against the world and returns its response, or panics
    ([None]) when it calls a method of a nil client. *)
Definition M (A : Type) : Type := World -> option (A * World).

Definition ret {A : Type} (a : A) : M A := fun w => Some (a, w).

Definition bind {A B : Type} (c : M A) (k : A -> M B) : M B :=
  fun w => match c w with
           | Some (a, w') => k a w'
           | None => None
           end.

Notation "x <- c ;; k" := (bind c (fun x => k))
  (at level 61, c at next level, right associativity).

Definition invoke {A : Type} (r : OnePasswordVaultResource) (call : Call)
  (op : Client -> Remote -> A * Remote) : M A :=
  fun w => match client r with
           | None => None
           | Some c =>
               let (res, rem) := op c (remote w) in
               Some (res, {| remote := rem; calls := (calls w ++ [call])%list |})
           end.

(** The dynamic value of [req.ProviderData] (an [any]): nil, a value that
    implements [onepassword.Client], or a value of another type, of which
    only the [%T] rendering is used. *)
Inductive any : Type :=
| nil_any
| any_Client (c : Client)
| any_other (typeName : string).

Record ConfigureRequest : Type := { ProviderData : any }.

Definition Configure (r : OnePasswordVaultResource) (req : ConfigureRequest)
  (resp : resource.ConfigureResponse)
  : OnePasswordVaultResource * resource.ConfigureResponse :=
  match ProviderData req with
  | nil_any => (r, resp)
  | any_other T =>
      (r, {| resource.ConfigureResponse_Diagnostics :=
               diag.AddError (resource.ConfigureResponse_Diagnostics resp)
                 "Unexpected Resource Configure Type"
                 ("Expected onepassword.Client, got: " ++ T
                  ++ ". Please report this issue to the provider developers.")
          |})
  | any_Client c => ({| client := Some c |}, resp)
  end.

Definition Create (r : OnePasswordVaultResource)
  (req : resource.CreateRequest) (resp : resource.Response)
  : M resource.Response :=
  let (plan, ds) := tfsdk.Get (resource.CreateRequest_Plan req) in
  let resp := resource.AppendDiagnostics resp ds in
  if diag.HasError (resource.Diagnostics resp) then ret resp else
  let vault := {| model.ID := "";
                  model.Name := types.ValueString (Name plan);
                  model.Description := types.ValueString (Description plan) |}
  in
  res <- invoke r (CallCreateVault vault) (fun c => CreateVault c vault) ;;
  match res with
  | inr err =>
      ret (resource.AddError resp "1Password Vault create error"
             ("Error creating 1Password vault, got error: " ++ Error err))
  | inl createdVault =>
      let plan := set_ID plan (types.StringValue (vaultTerraformID createdVault)) in
      let plan := set_UUID plan (types.StringValue (model.ID createdVault)) in
      let plan := set_Name plan (types.StringValue (model.Name createdVault)) in
      let plan := set_Description plan
                    (types.StringValue (model.Description createdVault)) in
      let (st, ds) := tfsdk.Set_ (resource.State resp) plan in
      ret (resource.AppendDiagnostics (resource.WithState resp st) ds)
  end.

Definition Read (r : OnePasswordVaultResource)
  (req : resource.ReadRequest) (resp : resource.Response)
  : M resource.Response :=
  let (state, ds) := tfsdk.Get (resource.ReadRequest_State req) in
  let resp := resource.AppendDiagnostics resp ds in
  if diag.HasError (resource.Diagnostics resp) then ret resp else
  let vaultUUID := vaultUUIDFromTerraformID (types.ValueString (ID state)) in
  res <- invoke r (CallGetVault vaultUUID) (fun c => GetVault c vaultUUID) ;;
  match res with
  | inr err =>
      if isNotFoundError err then
        ret (resource.WithState resp
               (tfsdk.RemoveResource (resource.State resp)))
      else
        ret (resource.AddError resp "1Password Vault read error"
               ("Could not get vault '" ++ vaultUUID ++ "', got error: "
                ++ Error err))
  | inl vault =>
      let state := set_ID state (types.StringValue (vaultTerraformID vault)) in
      let state := set_UUID state (types.StringValue (model.ID vault)) in
      let state := set_Name state (types.StringValue (model.Name vault)) in
      let state := set_Description state
                     (types.StringValue (model.Description vault)) in
      let (st, ds) := tfsdk.Set_ (resource.State resp) state in
      ret (resource.AppendDiagnostics (resource.WithState resp st) ds)
  end.

Definition Update (r : OnePasswordVaultResource)
  (req : resource.UpdateRequest) (resp : resource.Response)
  : M resource.Response :=
  let (plan, ds) := tfsdk.Get (resource.UpdateRequest_Plan req) in
  let resp := resource.AppendDiagnostics resp ds in
  if diag.HasError (resource.Diagnostics resp) then ret resp else
  let vault := {| model.ID := types.ValueString (UUID plan);
                  model.Name := types.ValueString (Name plan);
                  model.Description := types.ValueString (Description plan) |}
  in
  res <- invoke r (CallUpdateVault vault) (fun c => UpdateVault c vault) ;;
  match res with
  | inr err =>
      ret (resource.AddError resp "1Password Vault update error"
             ("Could not update vault '" ++ types.ValueString (UUID plan)
              ++ "', got error: " ++ Error err))
  | inl updatedVault =>
      let plan := set_ID plan (types.StringValue (vaultTerraformID updatedVault)) in
      let plan := set_UUID plan (types.StringValue (model.ID updatedVault)) in
      let plan := set_Name plan (types.StringValue (model.Name updatedVault)) in
      let plan := set_Description plan
                    (types.StringValue (model.Description updatedVault)) in
      let (st, ds) := tfsdk.Set_ (resource.State resp) plan in
      ret (resource.AppendDiagnostics (resource.WithState resp st) ds)
  end.

Definition Delete (r : OnePasswordVaultResource)
  (req : resource.DeleteRequest) (resp : resource.Response)
  : M resource.Response :=
  let (state, ds) := tfsdk.Get (resource.DeleteRequest_State req) in
  let resp := resource.AppendDiagnostics resp ds in
  if diag.HasError (resource.Diagnostics resp) then ret resp else
  let uuid := types.ValueString (UUID state) in
  res <- invoke r (CallDeleteVault uuid) (fun c => DeleteVault c uuid) ;;
  match res with
  | Some err =>
      ret (resource.AddError resp "1Password Vault delete error"
             ("Could not delete vault '" ++ uuid ++ "', got error: "
              ++ Error err))
  | None => ret resp
  end.

Definition ImportState (r : OnePasswordVaultResource)
  (req : resource.ImportStateRequest) (resp : resource.Response)
  : M resource.Response :=
  let vaultUUID := resource.ImportStateRequest_ID req in
  let (st, ds) := tfsdk.SetAttribute (resource.State resp) "id"
                    ("vaults/" ++ vaultUUID) in
  let resp := resource.AppendDiagnostics (resource.WithState resp st) ds in
  let (st, ds) := tfsdk.SetAttribute (resource.State resp) "uuid" vaultUUID in
  let resp := resource.AppendDiagnostics (resource.WithState resp st) ds in
  ret resp.

(** [NewOnePasswordVaultResource]: a resource whose client is nil. *)
Definition NewOnePasswordVaultResource : OnePasswordVaultResource :=
  {| client := None |}.

Record MetadataRequest : Type := { ProviderTypeName : string }.
Record MetadataResponse : Type := { TypeName : string }.

Definition Metadata (r : OnePasswordVaultResource) (req : MetadataRequest)
  (resp : MetadataResponse) : MetadataResponse :=
  {| TypeName := ProviderTypeName req ++ "_vault" |}.

Record SchemaResponse : Type := { Schema_ : schema.Schema }.

Definition Schema (r : OnePasswordVaultResource) (resp : SchemaResponse)
  : SchemaResponse :=
  {| Schema_ :=
       {| schema.Schema_MarkdownDescription := "Manages a 1Password Vault.";
          schema.Attributes :=
            [ ("id",
               {| schema.MarkdownDescription :=
                    "The Terraform resource identifier for this vault in the format `vaults/<vault_id>`.";
                  schema.Required := false;
                  schema.Optional := false;
                  schema.Computed := true;
                  schema.Default := None;
                  schema.PlanModifiers := [schema.UseStateForUnknown] |});
              ("uuid",
               {| schema.MarkdownDescription := "The UUID of the vault.";
                  schema.Required := false;
                  schema.Optional := false;
                  schema.Computed := true;
                  schema.Default := None;
                  schema.PlanModifiers := [schema.UseStateForUnknown] |});
              ("name",
               {| schema.MarkdownDescription := "The name of the vault.";
                  schema.Required := true;
                  schema.Optional := false;
                  schema.Computed := false;
                  schema.Default := None;
                  schema.PlanModifiers := [] |});
              ("description",
               {| schema.MarkdownDescription :=
                    "The description of the vault.";
                  schema.Required := false;
                  schema.Optional := true;
                  schema.Computed := true;
                  schema.Default := Some "";
                  schema.PlanModifiers := [] |}) ] |} |}.

(** How the orchestrator refreshes a resource: the state it holds is
    decoded into the request of [Read] (a row of the schema decodes without
    diagnostics) and is also the state of the response [Read] starts from,
    whose diagnostics are empty. *)
Definition stateData (s : tfsdk.State) : tfsdk.Data :=
  {| tfsdk.Raw := rowOf s; tfsdk.GetDiags := [] |}.

Definition refresh (r : OnePasswordVaultResource) (held : resource.Response)
  : M resource.Response :=
  Read r {| resource.ReadRequest_State := stateData (resource.State held) |}
    {| resource.State := resource.State held; resource.Diagnostics := [] |}.

(** The outcome of a handler that wrote [row] to the state. *)
Definition writes (out : option (resource.Response * World))
  (row : OnePasswordVaultResourceModel) : Prop :=
  exists resp' w', out = Some (resp', w') /\ resource.State resp' = Some row.

(** The outcome of a handler whose remote call failed with [err], given the
    response [prior] it was called with and the diagnostics [diags] it held
    after decoding the request: the handler returns, the state is the one of
    [prior], and one error diagnostic titled [title], whose detail contains
    the message of [err], has been added at the end of [diags], the only
    error of the collection. *)
Definition failsWith (out : option (resource.Response * World))
  (prior : resource.Response) (diags : diag.Diagnostics)
  (title : string) (err : error) : Prop :=
  exists resp' w' detail,
    out = Some (resp', w')
    /\ resource.State resp' = resource.State prior
    /\ resource.Diagnostics resp'
       = (diags ++ [diag.NewErrorDiagnostic title detail])%list
    /\ IsInfix (Error err) detail
    /\ diag.ErrorsCount (resource.Diagnostics resp') = 1.

(** The outcome of a handler that returned at once after decoding [d]: the
    world is untouched, the state is the one of [prior], and the
    diagnostics are those of [prior] with the ones of the decoding
    appended. *)
Definition returnsAtOnce (out : option (resource.Response * World))
  (prior : resource.Response) (d : tfsdk.Data) (w : World) : Prop :=
  exists resp',
    out = Some (resp', w)
    /\ resource.State resp' = resource.State prior
    /\ resource.Diagnostics resp'
       = diag.Append (resource.Diagnostics prior) (tfsdk.GetDiags d).

(** The world [w'] is [w], or [w] after the single remote call [call]. *)
Definition callsAtMost (w w' : World) (call : Call) : Prop :=
  w' = w
  \/ exists rem, w' = {| remote := rem; calls := (calls w ++ [call])%list |}.

(** The diagnostics of [after] extend those of [prior], with at most one
    error more than the decoding of [d] left. *)
Definition onlyAdds (prior after : resource.Response) (d : tfsdk.Data)
  : Prop :=
  (exists added,
      resource.Diagnostics after
      = (resource.Diagnostics prior ++ added)%list)
  /\ diag.ErrorsCount (resource.Diagnostics after)
     <= diag.ErrorsCount
          (diag.Append (resource.Diagnostics prior) (tfsdk.GetDiags d)) + 1.

End Resource.

(** ** A test double for the client

    The answers are scripted; the remote state counts the requests served. *)

Inductive testError : Type :=
| ErrNotFound (uuid : string)
| ErrRefused (msg : string).

Definition testError_Error (e : testError) : string :=
  match e with
  | ErrNotFound uuid => "vault " ++ uuid ++ " not found"
  | ErrRefused msg => msg
  end.

Definition testError_isNotFound (e : testError) : bool :=
  match e with ErrNotFound _ => true | ErrRefused _ => false end.

Definition scriptedClient (onCreate onGet onUpdate : model.Vault + testError)
  (onDelete : option testError) : Client testError nat :=
  {| CreateVault := fun _ n => (onCreate, S n);
     GetVault := fun _ n => (onGet, S n);
     UpdateVault := fun _ n => (onUpdate, S n);
     DeleteVault := fun _ n => (onDelete, S n) |}.

Definition prodVault : model.Vault :=
  {| model.ID := "AAA"; model.Name := "Prod";
     model.Description := "Production secrets" |}.

Definition movedVault : model.Vault :=
  {| model.ID := "ZZZ"; model.Name := "New"; model.Description := "y" |}.

Definition connectRefusal : testError :=
  ErrRefused "not supported with 1Password Connect".

Definition echoResource : OnePasswordVaultResource testError nat :=
  {| client := Some (scriptedClient (inl prodVault) (inl prodVault)
                       (inl movedVault) None) |}.

Definition connectResource : OnePasswordVaultResource testError nat :=
  {| client := Some (scriptedClient (inr connectRefusal) (inr connectRefusal)
                       (inr connectRefusal) (Some connectRefusal)) |}.

Definition driftedResource : OnePasswordVaultResource testError nat :=
  {| client := Some (scriptedClient (inl prodVault) (inr (ErrNotFound "DDD"))
                       (inl prodVault) None) |}.

Definition prodPlan : tfsdk.Data :=
  {| tfsdk.Raw := {| ID := types.StringUnknown; UUID := types.StringUnknown;
                     Name := types.StringValue "Prod";
                     Description := types.StringValue "Production secrets" |};
     tfsdk.GetDiags := [] |}.

Definition priorRow : OnePasswordVaultResourceModel :=
  {| ID := types.StringValue "vaults/DDD"; UUID := types.StringValue "DDD";
     Name := types.StringValue "Old"; Description := types.StringValue "x" |}.

Definition updatePlan : tfsdk.Data :=
  {| tfsdk.Raw := {| ID := types.StringValue "vaults/DDD";
                     UUID := types.StringValue "DDD";
                     Name := types.StringValue "New";
                     Description := types.StringValue "y" |};
     tfsdk.GetDiags := [] |}.

Definition priorState : tfsdk.Data :=
  {| tfsdk.Raw := priorRow; tfsdk.GetDiags := [] |}.

Definition emptyResponse : resource.Response :=
  {| resource.State := None; resource.Diagnostics := [] |}.

Definition priorResponse : resource.Response :=
  {| resource.State := Some priorRow; resource.Diagnostics := [] |}.

Definition startWorld : World nat := {| remote := 0; calls := [] |}.

Definition createRequest : resource.CreateRequest :=
  {| resource.CreateRequest_Plan := prodPlan |}.

Definition readRequest : resource.ReadRequest :=
  {| resource.ReadRequest_State := priorState |}.

Definition updateRequest : resource.UpdateRequest :=
  {| resource.UpdateRequest_Plan := updatePlan |}.

Definition deleteRequest : resource.DeleteRequest :=
  {| resource.DeleteRequest_State := priorState |}.

Definition importRequest : resource.ImportStateRequest :=
  {| resource.ImportStateRequest_ID := "EEE" |}.

Definition unconfigured : OnePasswordVaultResource testError nat :=
  {| client := None |}.

(** A plan whose decoding reported an error. *)
Definition brokenPlan : tfsdk.Data :=
  {| tfsdk.Raw := tfsdk.nullRow;
     tfsdk.GetDiags :=
       [diag.NewErrorDiagnostic "Value Conversion Error"
          "the plan does not have the shape of the model"] |}.

(** A plan with the name and description of [prodPlan] and stale ids. *)
Definition stalePlan : tfsdk.Data :=
  {| tfsdk.Raw := {| ID := types.StringValue "vaults/OLD";
                     UUID := types.StringNull;
                     Name := types.StringValue "Prod";
                     Description := types.StringValue "Production secrets" |};
     tfsdk.GetDiags := [] |}.

(** The outcome of [Create] on [createRequest]: with the echoing client, and
    with the refusing one. *)
Definition createdResponse : resource.Response :=
  {| resource.State := Some (vaultRow prodVault);
     resource.Diagnostics := [] |}.

Definition refusedResponse : resource.Response :=
  {| resource.State := None;
     resource.Diagnostics :=
       [diag.NewErrorDiagnostic "1Password Vault create error"
          "Error creating 1Password vault, got error: not supported with 1Password Connect"]
  |}.

Definition createdWorld : World nat :=
  {| remote := 1;
     calls := [CallCreateVault
                 {| model.ID := ""; model.Name := "Prod";
                    model.Description := "Production secrets" |}] |}.

(** ** The configuration builder of the acceptance test *)

(** The double quote and the line feed of the Go raw string literals. *)
Definition dquote : string := String "034" "".
Definition newline : string := String "010" "".

(** [testAccVaultResourceConfig]: the three raw string literals with [name]
    and [description] spliced in, unescaped. *)
Definition testAccVaultResourceConfig (name description : string) : string :=
  (newline ++ "resource " ++ dquote ++ "onepassword_vault" ++ dquote ++ " "
   ++ dquote ++ "test" ++ dquote ++ " {" ++ newline
   ++ "  name        = " ++ dquote)
  ++ name
  ++ (dquote ++ newline ++ "  description = " ++ dquote)
  ++ description
  ++ (dquote ++ newline ++ "}" ++ newline).

(** * Properties *)

(** ** The codec *)

Lemma Split_length (s : string) (sep : ascii) :
  length (strings.Split s sep) = S (strings.Count s sep).
Proof.
  induction s as [|c rest IH]; simpl; [reflexivity|].
  destruct (Ascii.eqb c sep); simpl.
  - now rewrite IH.
  - destruct (strings.Split rest sep) as [|hd tl]; simpl in *; [discriminate|].
    exact IH.
Qed.

Lemma Split_no_separator (s : string) (sep : ascii) :
  strings.Count s sep = 0 -> strings.Split s sep = [s].
Proof.
  induction s as [|c rest IH]; simpl; [reflexivity|].
  destruct (Ascii.eqb c sep); [discriminate|].
  intros H. now rewrite (IH H).
Qed.

Lemma Split_at_separator (a b : string) (sep : ascii) :
  strings.Count a sep = 0 ->
  strings.Split (a ++ String sep b) sep = a :: strings.Split b sep.
Proof.
  induction a as [|c rest IH]; simpl.
  - intros _. now rewrite Ascii.eqb_refl.
  - destruct (Ascii.eqb c sep); [discriminate|].
    intros H. now rewrite (IH H).
Qed.

Lemma Count_app (a b : string) (sep : ascii) :
  strings.Count (a ++ b) sep = strings.Count a sep + strings.Count b sep.
Proof.
  induction a as [|c rest IH]; simpl; [reflexivity|].
  destruct (Ascii.eqb c sep); simpl; now rewrite IH.
Qed.

Lemma Count_one_inv (s : string) (sep : ascii) :
  strings.Count s sep = 1 ->
  exists a b, s = a ++ String sep b
              /\ strings.Count a sep = 0 /\ strings.Count b sep = 0.
Proof.
  induction s as [|c rest IH]; simpl; [discriminate|].
  destruct (Ascii.eqb c sep) eqn:E.
  - intros H. apply Ascii.eqb_eq in E. subst c.
    exists EmptyString, rest. repeat split. now injection H.
  - intros H. destruct (IH H) as (a & b & -> & Ha & Hb).
    exists (String c a), b. simpl. rewrite E. now repeat split.
Qed.

Lemma vaultUUIDFromTerraformID_malformed (s : string) :
  strings.Count s "/" <> 1 -> vaultUUIDFromTerraformID s = "".
Proof.
  intros H. unfold vaultUUIDFromTerraformID.
  rewrite Split_length.
  destruct (Nat.eqb_spec (S (strings.Count s "/")) 2) as [E|E]; simpl.
  - exfalso. apply H. lia.
  - reflexivity.
Qed.

Lemma vaultUUIDFromTerraformID_pair (a b : string) :
  strings.Count a "/" = 0 -> strings.Count b "/" = 0 ->
  vaultUUIDFromTerraformID (a ++ "/" ++ b) = b.
Proof.
  intros Ha Hb. unfold vaultUUIDFromTerraformID.
  change ("/" ++ b) with (String "/" b).
  rewrite Split_at_separator by exact Ha.
  rewrite Split_no_separator by exact Hb.
  reflexivity.
Qed.

Lemma decompose_compose (u : string) :
  strings.Count u "/" = 0 -> vaultUUIDFromTerraformID ("vaults/" ++ u) = u.
Proof.
  intros Hu.
  change ("vaults/" ++ u) with ("vaults" ++ "/" ++ u).
  now apply vaultUUIDFromTerraformID_pair.
Qed.

(** C2, as stated, fails: a non-empty [u] that itself contains ["/"] makes
    the composite split into three segments, and the decoder answers [""]. *)
Lemma decompose_compose_slash_counterexample :
  ~ (forall u : string,
        u <> "" -> vaultUUIDFromTerraformID ("vaults/" ++ u) = u).
Proof.
  intros H. specialize (H "a/b"). vm_compute in H.
  assert (E : "" = "a/b") by (apply H; discriminate).
  discriminate E.
Qed.

(** C2 (amended): for every non-empty string [u] that contains no ["/"],
    decomposing the composite identifier built from [u] returns [u]:
    [vaultUUIDFromTerraformID("vaults/" + u) == u]. *)
Theorem decompose_compose_roundtrip (u : string) :
  u <> "" -> strings.Count u "/" = 0 ->
  vaultUUIDFromTerraformID ("vaults/" ++ u) = u.
Proof.
  intros _ Hu. now apply decompose_compose.
Qed.

Lemma decompose_compose_roundtrip_witness :
  "AAA" <> "" /\ strings.Count "AAA" "/" = 0
  /\ vaultUUIDFromTerraformID ("vaults/" ++ "AAA") = "AAA".
Proof.
  split; [discriminate|]. split; [reflexivity|].
  apply (@decompose_compose_roundtrip "AAA"); [discriminate|reflexivity].
Defined.

(** C6, as stated, fails: ["vaults/"] contains exactly one ["/"] and is
    still mapped to the empty string, so the empty result does not
    characterise the inputs without exactly one ["/"]. *)
Lemma empty_result_counterexample :
  ~ (forall s : string,
        vaultUUIDFromTerraformID s = "" <-> strings.Count s "/" <> 1).
Proof.
  intros H. destruct (H "vaults/") as [H1 _].
  apply H1; reflexivity.
Qed.

(** C6 (amended): [vaultUUIDFromTerraformID] splits its input on ["/"];
    it returns the empty string whenever the input does not contain exactly
    one ["/"]; an input with exactly one ["/"] is [a ++ "/" ++ b] with no
    ["/"] in [a] or [b], and the result is then [b], whatever [a] is (the
    first segment is not compared with ["vaults"]); so the result is empty
    exactly when the input does not contain exactly one ["/"] or ends with
    its only ["/"]. *)
Theorem vaultUUIDFromTerraformID_spec :
  (forall s, strings.Count s "/" <> 1 -> vaultUUIDFromTerraformID s = "")
  /\ (forall s, strings.Count s "/" = 1 ->
        exists a b, s = a ++ "/" ++ b
                    /\ strings.Count a "/" = 0 /\ strings.Count b "/" = 0)
  /\ (forall a b, strings.Count a "/" = 0 -> strings.Count b "/" = 0 ->
        vaultUUIDFromTerraformID (a ++ "/" ++ b) = b)
  /\ (forall s, vaultUUIDFromTerraformID s = ""
                <-> (strings.Count s "/" <> 1 \/ exists a, s = a ++ "/")).
Proof.
  split; [exact vaultUUIDFromTerraformID_malformed|].
  split; [intros s Hs; exact (Count_one_inv _ _ Hs)|].
  split; [exact vaultUUIDFromTerraformID_pair|].
  intros s. split.
  - intros Hempty.
    destruct (Nat.eq_dec (strings.Count s "/") 1) as [E|E]; [right|now left].
    destruct (Count_one_inv _ _ E) as (a & b & -> & Ha & Hb).
    change (String "/" b) with ("/" ++ b) in Hempty.
    rewrite (vaultUUIDFromTerraformID_pair _ _ Ha Hb) in Hempty.
    subst b. now exists a.
  - intros [Hs|[a ->]]; [now apply vaultUUIDFromTerraformID_malformed|].
    destruct (Nat.eq_dec (strings.Count (a ++ "/") "/") 1) as [E|E].
    + rewrite Count_app in E. simpl in E.
      change (a ++ "/") with (a ++ "/" ++ "").
      apply vaultUUIDFromTerraformID_pair; [lia|reflexivity].
    + now apply vaultUUIDFromTerraformID_malformed.
Qed.

Lemma vaultUUIDFromTerraformID_spec_witness :
  vaultUUIDFromTerraformID "vaults" = ""
  /\ vaultUUIDFromTerraformID "vaults/a/b" = ""
  /\ vaultUUIDFromTerraformID ("teams" ++ "/" ++ "AAA") = "AAA".
Proof.
  destruct vaultUUIDFromTerraformID_spec as (Hbad & _ & Hpair & _).
  split; [apply Hbad; vm_compute; lia|].
  split; [apply Hbad; vm_compute; lia|].
  apply Hpair; reflexivity.
Defined.

(** C10: the well-formed composite with an empty UUID segment, ["vaults/"],
    is decoded to the empty string, which is also the result for every
    malformed input, one that does not contain exactly one ["/"]: the
    decoder's output does not tell an empty uuid from a malformed
    identifier. *)
Theorem empty_uuid_indistinguishable :
  vaultUUIDFromTerraformID "vaults/" = ""
  /\ (forall s, strings.Count s "/" <> 1 ->
        vaultUUIDFromTerraformID s = ""
        /\ vaultUUIDFromTerraformID s = vaultUUIDFromTerraformID "vaults/").
Proof.
  split; [reflexivity|].
  intros s Hs. now rewrite vaultUUIDFromTerraformID_malformed.
Qed.

Lemma empty_uuid_indistinguishable_witness :
  vaultUUIDFromTerraformID "vaults" = vaultUUIDFromTerraformID "vaults/"
  /\ vaultUUIDFromTerraformID "a/b/c" = vaultUUIDFromTerraformID "vaults/".
Proof.
  destruct empty_uuid_indistinguishable as (_ & H).
  split; apply H; vm_compute; lia.
Defined.

(** ** The diagnostics accumulator *)

Lemma Equal_isError (a b : diag.Diagnostic) :
  diag.Equal a b = true -> diag.isError b = diag.isError a.
Proof.
  unfold diag.Equal, diag.isError.
  destruct (diag.severity a), (diag.severity b); simpl; congruence.
Qed.

Lemma Contains_error_free (diags : diag.Diagnostics) (summary detail : string) :
  diag.HasError diags = false ->
  diag.Contains diags (diag.NewErrorDiagnostic summary detail) = false.
Proof.
  unfold diag.Contains, diag.HasError.
  induction diags as [|d rest IH]; simpl; [reflexivity|].
  intros H. apply orb_false_iff in H as [Hd Hrest].
  rewrite (IH Hrest), orb_false_r.
  destruct (diag.Equal (diag.NewErrorDiagnostic summary detail) d) eqn:E;
    [|reflexivity].
  apply Equal_isError in E. change (diag.isError d = true) in E. congruence.
Qed.

Lemma AddError_error_free (diags : diag.Diagnostics) (summary detail : string) :
  diag.HasError diags = false ->
  diag.AddError diags summary detail
  = (diags ++ [diag.NewErrorDiagnostic summary detail])%list.
Proof.
  intros H. unfold diag.AddError. simpl.
  now rewrite Contains_error_free.
Qed.

Lemma ErrorsCount_error_free (diags : diag.Diagnostics) :
  diag.HasError diags = false -> diag.ErrorsCount diags = 0.
Proof.
  unfold diag.HasError, diag.ErrorsCount.
  induction diags as [|d rest IH]; simpl; [reflexivity|].
  intros H. apply orb_false_iff in H as [Hd Hrest].
  rewrite Hd. auto.
Qed.

Lemma ErrorsCount_one_more (diags : diag.Diagnostics) (summary detail : string) :
  diag.HasError diags = false ->
  diag.ErrorsCount (diags ++ [diag.NewErrorDiagnostic summary detail])%list
  = 1.
Proof.
  intros H. unfold diag.ErrorsCount.
  rewrite filter_app, length_app.
  fold (diag.ErrorsCount diags). now rewrite ErrorsCount_error_free.
Qed.

Lemma IsInfix_suffix (pre sub : string) : IsInfix sub (pre ++ sub).
Proof.
  exists pre, "". f_equal.
  induction sub as [|c rest IH]; simpl; [reflexivity|now rewrite <- IH].
Qed.

Lemma IsInfix_app_l (pre s sub : string) : IsInfix sub s -> IsInfix sub (pre ++ s).
Proof.
  intros (p & q & ->). exists (pre ++ p), q.
  induction pre as [|c rest IH]; simpl; [reflexivity|now rewrite IH].
Qed.

(** ** The handlers, path by path *)

Section HandlerProperties.

Variable error : Type.
Variable Error : error -> string.
Variable isNotFoundError : error -> bool.
Variable Remote : Type.

Implicit Types (r : OnePasswordVaultResource error Remote).
Implicit Types (c : Client error Remote) (w : World Remote).
Implicit Types (resp : resource.Response) (err : error) (rem : Remote).

Ltac run_handler Hclient Hdecode Hcall :=
  unfold Create, Read, Update, Delete, createArgument, readArgument,
    updateArgument, deleteArgument, decoded, tfsdk.Get in *;
  simpl in *; rewrite Hdecode;
  unfold bind, invoke; rewrite Hclient, Hcall; simpl.

Ltac decode_error Hdecode :=
  unfold Create, Read, Update, Delete, decoded, tfsdk.Get in *;
  simpl in *; now rewrite Hdecode.

(** A handler that finds an error after decoding returns at once: no remote
    call, no state write. *)
Lemma Create_decode_error r req resp w :
  diag.HasError
    (resource.Diagnostics (decoded resp (resource.CreateRequest_Plan req)))
  = true ->
  Create Error r req resp w
  = Some (decoded resp (resource.CreateRequest_Plan req), w).
Proof. intros H. decode_error H. Qed.

Lemma Read_decode_error r req resp w :
  diag.HasError
    (resource.Diagnostics (decoded resp (resource.ReadRequest_State req)))
  = true ->
  Read Error isNotFoundError r req resp w
  = Some (decoded resp (resource.ReadRequest_State req), w).
Proof. intros H. decode_error H. Qed.

Lemma Update_decode_error r req resp w :
  diag.HasError
    (resource.Diagnostics (decoded resp (resource.UpdateRequest_Plan req)))
  = true ->
  Update Error r req resp w
  = Some (decoded resp (resource.UpdateRequest_Plan req), w).
Proof. intros H. decode_error H. Qed.

Lemma Delete_decode_error r req resp w :
  diag.HasError
    (resource.Diagnostics (decoded resp (resource.DeleteRequest_State req)))
  = true ->
  Delete Error r req resp w
  = Some (decoded resp (resource.DeleteRequest_State req), w).
Proof. intros H. decode_error H. Qed.

(** The success paths: the row written is the one of the returned vault. *)
Lemma Create_ok r c req resp w vault rem :
  client r = Some c ->
  diag.HasError
    (resource.Diagnostics (decoded resp (resource.CreateRequest_Plan req)))
  = false ->
  CreateVault c (createArgument req) (remote w) = (inl vault, rem) ->
  Create Error r req resp w
  = Some (resource.WithState
            (decoded resp (resource.CreateRequest_Plan req))
            (Some (vaultRow vault)),
          {| remote := rem;
             calls := (calls w ++ [CallCreateVault (createArgument req)])%list
          |}).
Proof. intros Hc Hd Hr. run_handler Hc Hd Hr. reflexivity. Qed.

Lemma Read_ok r c req resp w vault rem :
  client r = Some c ->
  diag.HasError
    (resource.Diagnostics (decoded resp (resource.ReadRequest_State req)))
  = false ->
  GetVault c (readArgument req) (remote w) = (inl vault, rem) ->
  Read Error isNotFoundError r req resp w
  = Some (resource.WithState
            (decoded resp (resource.ReadRequest_State req))
            (Some (vaultRow vault)),
          {| remote := rem;
             calls := (calls w ++ [CallGetVault (readArgument req)])%list |}).
Proof. intros Hc Hd Hr. run_handler Hc Hd Hr. reflexivity. Qed.

Lemma Update_ok r c req resp w vault rem :
  client r = Some c ->
  diag.HasError
    (resource.Diagnostics (decoded resp (resource.UpdateRequest_Plan req)))
  = false ->
  UpdateVault c (updateArgument req) (remote w) = (inl vault, rem) ->
  Update Error r req resp w
  = Some (resource.WithState
            (decoded resp (resource.UpdateRequest_Plan req))
            (Some (vaultRow vault)),
          {| remote := rem;
             calls := (calls w ++ [CallUpdateVault (updateArgument req)])%list
          |}).
Proof. intros Hc Hd Hr. run_handler Hc Hd Hr. reflexivity. Qed.

Lemma Delete_ok r c req resp w rem :
  client r = Some c ->
  diag.HasError
    (resource.Diagnostics (decoded resp (resource.DeleteRequest_State req)))
  = false ->
  DeleteVault c (deleteArgument req) (remote w) = (None, rem) ->
  Delete Error r req resp w
  = Some (decoded resp (resource.DeleteRequest_State req),
          {| remote := rem;
             calls := (calls w ++ [CallDeleteVault (deleteArgument req)])%list
          |}).
Proof. intros Hc Hd Hr. run_handler Hc Hd Hr. reflexivity. Qed.

(** [Read] on a not-found error: the row is removed, nothing is added. *)
Lemma Read_not_found r c req resp w err rem :
  client r = Some c ->
  diag.HasError
    (resource.Diagnostics (decoded resp (resource.ReadRequest_State req)))
  = false ->
  GetVault c (readArgument req) (remote w) = (inr err, rem) ->
  isNotFoundError err = true ->
  Read Error isNotFoundError r req resp w
  = Some (resource.WithState
            (decoded resp (resource.ReadRequest_State req)) None,
          {| remote := rem;
             calls := (calls w ++ [CallGetVault (readArgument req)])%list |}).
Proof. intros Hc Hd Hr Hnf. run_handler Hc Hd Hr. now rewrite Hnf. Qed.

(** The failure paths: one diagnostic is added, the state is not touched. *)
Lemma Create_error r c req resp w err rem :
  client r = Some c ->
  diag.HasError
    (resource.Diagnostics (decoded resp (resource.CreateRequest_Plan req)))
  = false ->
  CreateVault c (createArgument req) (remote w) = (inr err, rem) ->
  Create Error r req resp w
  = Some (resource.AddError
            (decoded resp (resource.CreateRequest_Plan req))
            "1Password Vault create error"
            ("Error creating 1Password vault, got error: " ++ Error err),
          {| remote := rem;
             calls := (calls w ++ [CallCreateVault (createArgument req)])%list
          |}).
Proof. intros Hc Hd Hr. run_handler Hc Hd Hr. reflexivity. Qed.

Lemma Read_error r c req resp w err rem :
  client r = Some c ->
  diag.HasError
    (resource.Diagnostics (decoded resp (resource.ReadRequest_State req)))
  = false ->
  GetVault c (readArgument req) (remote w) = (inr err, rem) ->
  isNotFoundError err = false ->
  Read Error isNotFoundError r req resp w
  = Some (resource.AddError
            (decoded resp (resource.ReadRequest_State req))
            "1Password Vault read error"
            ("Could not get vault '" ++ readArgument req
             ++ "', got error: " ++ Error err),
          {| remote := rem;
             calls := (calls w ++ [CallGetVault (readArgument req)])%list |}).
Proof. intros Hc Hd Hr Hnf. run_handler Hc Hd Hr. now rewrite Hnf. Qed.

Lemma Update_error r c req resp w err rem :
  client r = Some c ->
  diag.HasError
    (resource.Diagnostics (decoded resp (resource.UpdateRequest_Plan req)))
  = false ->
  UpdateVault c (updateArgument req) (remote w) = (inr err, rem) ->
  Update Error r req resp w
  = Some (resource.AddError
            (decoded resp (resource.UpdateRequest_Plan req))
            "1Password Vault update error"
            ("Could not update vault '"
             ++ types.ValueString
                  (UUID (tfsdk.Raw (resource.UpdateRequest_Plan req)))
             ++ "', got error: " ++ Error err),
          {| remote := rem;
             calls := (calls w ++ [CallUpdateVault (updateArgument req)])%list
          |}).
Proof. intros Hc Hd Hr. run_handler Hc Hd Hr. reflexivity. Qed.

Lemma Delete_error r c req resp w err rem :
  client r = Some c ->
  diag.HasError
    (resource.Diagnostics (decoded resp (resource.DeleteRequest_State req)))
  = false ->
  DeleteVault c (deleteArgument req) (remote w) = (Some err, rem) ->
  Delete Error r req resp w
  = Some (resource.AddError
            (decoded resp (resource.DeleteRequest_State req))
            "1Password Vault delete error"
            ("Could not delete vault '" ++ deleteArgument req
             ++ "', got error: " ++ Error err),
          {| remote := rem;
             calls := (calls w ++ [CallDeleteVault (deleteArgument req)])%list
          |}).
Proof. intros Hc Hd Hr. run_handler Hc Hd Hr. reflexivity. Qed.

(** A handler called on a resource that was never configured panics. *)
Lemma Create_unconfigured r req resp w :
  client r = None ->
  diag.HasError
    (resource.Diagnostics (decoded resp (resource.CreateRequest_Plan req)))
  = false ->
  Create Error r req resp w = None.
Proof.
  intros Hc Hd. unfold Create, decoded, tfsdk.Get in *. simpl in *.
  rewrite Hd. unfold bind, invoke. now rewrite Hc.
Qed.

Lemma ImportState_eq r req resp w :
  ImportState r req resp w
  = Some ({| resource.State :=
               Some {| ID := types.StringValue
                               ("vaults/" ++ resource.ImportStateRequest_ID req);
                       UUID := types.StringValue
                                 (resource.ImportStateRequest_ID req);
                       Name := Name (rowOf (resource.State resp));
                       Description := Description (rowOf (resource.State resp))
                    |};
             resource.Diagnostics := resource.Diagnostics resp |}, w).
Proof. reflexivity. Qed.

Lemma vaultRow_invariant (vault : model.Vault) :
  rowInvariant (vaultRow vault) = true.
Proof. unfold rowInvariant, vaultRow, vaultTerraformID. simpl. apply String.eqb_refl. Qed.

Lemma AddError_failsWith resp (d : tfsdk.Data) w title detail err :
  diag.HasError (resource.Diagnostics (decoded resp d)) = false ->
  IsInfix (Error err) detail ->
  failsWith Error (Some (resource.AddError (decoded resp d) title detail, w))
    resp (resource.Diagnostics (decoded resp d)) title err.
Proof.
  intros Hd Hin. exists (resource.AddError (decoded resp d) title detail), w, detail.
  split; [reflexivity|]. split; [reflexivity|].
  unfold resource.AddError. simpl.
  rewrite AddError_error_free by exact Hd.
  split; [reflexivity|]. split; [exact Hin|].
  now apply ErrorsCount_one_more.
Qed.

(** Every handler keeps the state well formed, on all of its paths. *)
Lemma Create_keeps_invariant r req resp w resp' w' :
  stateInvariant (resource.State resp) = true ->
  Create Error r req resp w = Some (resp', w') ->
  stateInvariant (resource.State resp') = true.
Proof.
  intros Hinv. unfold Create, tfsdk.Get, bind, invoke, ret. simpl.
  destruct (diag.HasError _); [intros [= <- <-]; exact Hinv|].
  destruct (client r) as [c|]; [|discriminate].
  destruct (CreateVault c _ (remote w)) as [[vault|err] rem];
    intros [= <- <-]; [apply vaultRow_invariant|exact Hinv].
Qed.

Lemma Read_keeps_invariant r req resp w resp' w' :
  stateInvariant (resource.State resp) = true ->
  Read Error isNotFoundError r req resp w = Some (resp', w') ->
  stateInvariant (resource.State resp') = true.
Proof.
  intros Hinv. unfold Read, tfsdk.Get, bind, invoke, ret. simpl.
  destruct (diag.HasError _); [intros [= <- <-]; exact Hinv|].
  destruct (client r) as [c|]; [|discriminate].
  destruct (GetVault c _ (remote w)) as [[vault|err] rem].
  - intros [= <- <-]. apply vaultRow_invariant.
  - destruct (isNotFoundError err); intros [= <- <-];
      [reflexivity|exact Hinv].
Qed.

Lemma Update_keeps_invariant r req resp w resp' w' :
  stateInvariant (resource.State resp) = true ->
  Update Error r req resp w = Some (resp', w') ->
  stateInvariant (resource.State resp') = true.
Proof.
  intros Hinv. unfold Update, tfsdk.Get, bind, invoke, ret. simpl.
  destruct (diag.HasError _); [intros [= <- <-]; exact Hinv|].
  destruct (client r) as [c|]; [|discriminate].
  destruct (UpdateVault c _ (remote w)) as [[vault|err] rem];
    intros [= <- <-]; [apply vaultRow_invariant|exact Hinv].
Qed.

Lemma Delete_keeps_state r req resp w resp' w' :
  Delete Error r req resp w = Some (resp', w') ->
  resource.State resp' = resource.State resp.
Proof.
  unfold Delete, tfsdk.Get, bind, invoke, ret. simpl.
  destruct (diag.HasError _); [now intros [= <- <-]|].
  destruct (client r) as [c|]; [|discriminate].
  destruct (DeleteVault c _ (remote w)) as [[err|] rem];
    now intros [= <- <-].
Qed.

Lemma ImportState_establishes_invariant r req resp w resp' w' :
  ImportState r req resp w = Some (resp', w') ->
  stateInvariant (resource.State resp') = true.
Proof.
  rewrite ImportState_eq. intros [= <- <-]. simpl.
  unfold rowInvariant. simpl. apply String.eqb_refl.
Qed.

(** ** The properties of the specification *)

(** C1: every state row written by a handler has [id == "vaults/" + uuid].
    The handlers write a row on four paths: [Create], [Read] and [Update]
    when their remote call returns a vault, and [ImportState]; on each the
    row written has a known [uuid] and [id], with [id] the string "vaults/"
    followed by [uuid]. *)
Theorem written_rows_have_composite_id :
  (forall r c req resp w vault rem,
      client r = Some c ->
      diag.HasError
        (resource.Diagnostics (decoded resp (resource.CreateRequest_Plan req)))
      = false ->
      CreateVault c (createArgument req) (remote w) = (inl vault, rem) ->
      exists row uuid,
        writes (Create Error r req resp w) row
        /\ UUID row = types.StringValue uuid
        /\ ID row = types.StringValue ("vaults/" ++ uuid))
  /\ (forall r c req resp w vault rem,
        client r = Some c ->
        diag.HasError
          (resource.Diagnostics (decoded resp (resource.ReadRequest_State req)))
        = false ->
        GetVault c (readArgument req) (remote w) = (inl vault, rem) ->
        exists row uuid,
          writes (Read Error isNotFoundError r req resp w) row
          /\ UUID row = types.StringValue uuid
          /\ ID row = types.StringValue ("vaults/" ++ uuid))
  /\ (forall r c req resp w vault rem,
        client r = Some c ->
        diag.HasError
          (resource.Diagnostics (decoded resp (resource.UpdateRequest_Plan req)))
        = false ->
        UpdateVault c (updateArgument req) (remote w) = (inl vault, rem) ->
        exists row uuid,
          writes (Update Error r req resp w) row
          /\ UUID row = types.StringValue uuid
          /\ ID row = types.StringValue ("vaults/" ++ uuid))
  /\ (forall r req resp w,
        exists row uuid,
          writes (ImportState r req resp w) row
          /\ UUID row = types.StringValue uuid
          /\ ID row = types.StringValue ("vaults/" ++ uuid)).
Proof.
  repeat split.
  - intros r c req resp w vault rem Hc Hd Hr.
    exists (vaultRow vault), (model.ID vault).
    rewrite (@Create_ok r c req resp w vault rem Hc Hd Hr).
    split; [|split; reflexivity]. eexists _, _. split; reflexivity.
  - intros r c req resp w vault rem Hc Hd Hr.
    exists (vaultRow vault), (model.ID vault).
    rewrite (@Read_ok r c req resp w vault rem Hc Hd Hr).
    split; [|split; reflexivity]. eexists _, _. split; reflexivity.
  - intros r c req resp w vault rem Hc Hd Hr.
    exists (vaultRow vault), (model.ID vault).
    rewrite (@Update_ok r c req resp w vault rem Hc Hd Hr).
    split; [|split; reflexivity]. eexists _, _. split; reflexivity.
  - intros r req resp w. rewrite ImportState_eq.
    eexists _, (resource.ImportStateRequest_ID req).
    split; [eexists _, _; split; reflexivity|].
    split; reflexivity.
Qed.

(** C3: when the remote call of [Create], [Update] or [Delete] returns an
    error, or the one of [Read] an error that is not a not-found error, the
    handler writes no state: it returns with the state it was given, and
    the diagnostics it held after decoding followed by exactly one error
    diagnostic, titled "1Password Vault create error" (respectively update,
    delete, read), whose detail contains the message of the error. *)
Theorem remote_error_writes_no_state :
  (forall r c req resp w err rem,
      client r = Some c ->
      diag.HasError
        (resource.Diagnostics (decoded resp (resource.CreateRequest_Plan req)))
      = false ->
      CreateVault c (createArgument req) (remote w) = (inr err, rem) ->
      failsWith Error (Create Error r req resp w) resp
        (resource.Diagnostics (decoded resp (resource.CreateRequest_Plan req)))
        "1Password Vault create error" err)
  /\ (forall r c req resp w err rem,
        client r = Some c ->
        diag.HasError
          (resource.Diagnostics (decoded resp (resource.UpdateRequest_Plan req)))
        = false ->
        UpdateVault c (updateArgument req) (remote w) = (inr err, rem) ->
        failsWith Error (Update Error r req resp w) resp
          (resource.Diagnostics
             (decoded resp (resource.UpdateRequest_Plan req)))
          "1Password Vault update error" err)
  /\ (forall r c req resp w err rem,
        client r = Some c ->
        diag.HasError
          (resource.Diagnostics
             (decoded resp (resource.DeleteRequest_State req)))
        = false ->
        DeleteVault c (deleteArgument req) (remote w) = (Some err, rem) ->
        failsWith Error (Delete Error r req resp w) resp
          (resource.Diagnostics
             (decoded resp (resource.DeleteRequest_State req)))
          "1Password Vault delete error" err)
  /\ (forall r c req resp w err rem,
        client r = Some c ->
        diag.HasError
          (resource.Diagnostics (decoded resp (resource.ReadRequest_State req)))
        = false ->
        GetVault c (readArgument req) (remote w) = (inr err, rem) ->
        isNotFoundError err = false ->
        failsWith Error (Read Error isNotFoundError r req resp w) resp
          (resource.Diagnostics (decoded resp (resource.ReadRequest_State req)))
          "1Password Vault read error" err).
Proof.
  repeat split.
  - intros r c req resp w err rem Hc Hd Hr.
    rewrite (@Create_error r c req resp w err rem Hc Hd Hr).
    apply AddError_failsWith; [exact Hd|apply IsInfix_suffix].
  - intros r c req resp w err rem Hc Hd Hr.
    rewrite (@Update_error r c req resp w err rem Hc Hd Hr).
    apply AddError_failsWith; [exact Hd|].
    do 2 apply IsInfix_app_l. apply IsInfix_suffix.
  - intros r c req resp w err rem Hc Hd Hr.
    rewrite (@Delete_error r c req resp w err rem Hc Hd Hr).
    apply AddError_failsWith; [exact Hd|].
    do 2 apply IsInfix_app_l. apply IsInfix_suffix.
  - intros r c req resp w err rem Hc Hd Hr Hnf.
    rewrite (@Read_error r c req resp w err rem Hc Hd Hr Hnf).
    apply AddError_failsWith; [exact Hd|].
    do 2 apply IsInfix_app_l. apply IsInfix_suffix.
Qed.

(** C4: when [GetVault] returns an error that [isNotFoundError] classifies
    as not-found, [Read] removes the state row and returns with the
    diagnostics it held after decoding, none added and none of them an
    error; for any other [GetVault] error, [Read] adds the
    "1Password Vault read error" diagnostic and leaves the state row in
    place. *)
Theorem Read_classifies_errors r c req resp w err rem :
  client r = Some c ->
  diag.HasError
    (resource.Diagnostics (decoded resp (resource.ReadRequest_State req)))
  = false ->
  GetVault c (readArgument req) (remote w) = (inr err, rem) ->
  exists resp' w',
    Read Error isNotFoundError r req resp w = Some (resp', w')
    /\ (isNotFoundError err = true ->
        resource.State resp' = None
        /\ resource.Diagnostics resp'
           = resource.Diagnostics
               (decoded resp (resource.ReadRequest_State req))
        /\ diag.HasError (resource.Diagnostics resp') = false)
    /\ (isNotFoundError err = false ->
        resource.State resp' = resource.State resp
        /\ resource.Diagnostics resp'
           = (resource.Diagnostics
                (decoded resp (resource.ReadRequest_State req))
              ++ [diag.NewErrorDiagnostic "1Password Vault read error"
                    ("Could not get vault '" ++ readArgument req
                     ++ "', got error: " ++ Error err)])%list).
Proof.
  intros Hc Hd Hr.
  destruct (isNotFoundError err) eqn:Hnf.
  - rewrite (@Read_not_found r c req resp w err rem Hc Hd Hr Hnf).
    eexists _, _. split; [reflexivity|].
    split; [intros _|discriminate].
    split; [reflexivity|]. split; [reflexivity|exact Hd].
  - rewrite (@Read_error r c req resp w err rem Hc Hd Hr Hnf).
    eexists _, _. split; [reflexivity|].
    split; [discriminate|intros _].
    split; [reflexivity|].
    unfold resource.AddError. simpl.
    now rewrite AddError_error_free by exact Hd.
Qed.

(** C5 (amended): on every successful [Update] the uuid and the composite id
    written to state are those of the vault [UpdateVault] returned:
    [uuid = updated.ID] and [id = vaultTerraformID(updated)], that is
    "vaults/" followed by [updated.ID]. They equal the uuid and id of the
    plan whenever the returned vault carries the uuid of the plan and the
    plan's id is "vaults/" followed by that uuid. *)
Theorem Update_writes_returned_identity r c req resp w vault rem :
  client r = Some c ->
  diag.HasError
    (resource.Diagnostics (decoded resp (resource.UpdateRequest_Plan req)))
  = false ->
  UpdateVault c (updateArgument req) (remote w) = (inl vault, rem) ->
  exists row,
    writes (Update Error r req resp w) row
    /\ UUID row = types.StringValue (model.ID vault)
    /\ ID row = types.StringValue (vaultTerraformID vault)
    /\ ID row = types.StringValue ("vaults/" ++ model.ID vault)
    /\ (forall uuid,
          UUID (tfsdk.Raw (resource.UpdateRequest_Plan req))
          = types.StringValue uuid ->
          ID (tfsdk.Raw (resource.UpdateRequest_Plan req))
          = types.StringValue ("vaults/" ++ uuid) ->
          model.ID vault = uuid ->
          UUID row = UUID (tfsdk.Raw (resource.UpdateRequest_Plan req))
          /\ ID row = ID (tfsdk.Raw (resource.UpdateRequest_Plan req))).
Proof.
  intros Hc Hd Hr. exists (vaultRow vault).
  rewrite (@Update_ok r c req resp w vault rem Hc Hd Hr).
  split; [eexists _, _; split; reflexivity|].
  repeat (split; [reflexivity|]).
  intros uuid Hu Hi Hv. rewrite Hu, Hi. simpl.
  unfold vaultTerraformID. now rewrite Hv.
Qed.

(** C7: whenever [Create], [Read] or [Update] succeeds, the name and the
    description written to state are those of the vault the remote call
    ([CreateVault], [GetVault], [UpdateVault]) returned, whatever the
    request or plan held. *)
Theorem written_name_and_description_are_returned :
  (forall r c req resp w vault rem,
      client r = Some c ->
      diag.HasError
        (resource.Diagnostics (decoded resp (resource.CreateRequest_Plan req)))
      = false ->
      CreateVault c (createArgument req) (remote w) = (inl vault, rem) ->
      exists row,
        writes (Create Error r req resp w) row
        /\ Name row = types.StringValue (model.Name vault)
        /\ Description row = types.StringValue (model.Description vault))
  /\ (forall r c req resp w vault rem,
        client r = Some c ->
        diag.HasError
          (resource.Diagnostics (decoded resp (resource.ReadRequest_State req)))
        = false ->
        GetVault c (readArgument req) (remote w) = (inl vault, rem) ->
        exists row,
          writes (Read Error isNotFoundError r req resp w) row
          /\ Name row = types.StringValue (model.Name vault)
          /\ Description row = types.StringValue (model.Description vault))
  /\ (forall r c req resp w vault rem,
        client r = Some c ->
        diag.HasError
          (resource.Diagnostics (decoded resp (resource.UpdateRequest_Plan req)))
        = false ->
        UpdateVault c (updateArgument req) (remote w) = (inl vault, rem) ->
        exists row,
          writes (Update Error r req resp w) row
          /\ Name row = types.StringValue (model.Name vault)
          /\ Description row = types.StringValue (model.Description vault)).
Proof.
  repeat split.
  - intros r c req resp w vault rem Hc Hd Hr. exists (vaultRow vault).
    rewrite (@Create_ok r c req resp w vault rem Hc Hd Hr).
    split; [eexists _, _; split; reflexivity|split; reflexivity].
  - intros r c req resp w vault rem Hc Hd Hr. exists (vaultRow vault).
    rewrite (@Read_ok r c req resp w vault rem Hc Hd Hr).
    split; [eexists _, _; split; reflexivity|split; reflexivity].
  - intros r c req resp w vault rem Hc Hd Hr. exists (vaultRow vault).
    rewrite (@Update_ok r c req resp w vault rem Hc Hd Hr).
    split; [eexists _, _; split; reflexivity|split; reflexivity].
Qed.

(** C8: for every import key [k], [ImportState] writes two attributes,
    [id = "vaults/" + k] and [uuid = k]; [name] and [description] are the
    ones of the row it started from, null when the state was empty; no
    diagnostic is added and the world is returned as it was: no remote call
    is made (a nil client is no obstacle). *)
Theorem ImportState_writes_id_and_uuid r req resp w :
  exists resp' row,
    ImportState r req resp w = Some (resp', w)
    /\ resource.State resp' = Some row
    /\ ID row
       = types.StringValue ("vaults/" ++ resource.ImportStateRequest_ID req)
    /\ UUID row = types.StringValue (resource.ImportStateRequest_ID req)
    /\ Name row = Name (rowOf (resource.State resp))
    /\ Description row = Description (rowOf (resource.State resp))
    /\ (resource.State resp = None ->
        Name row = types.StringNull /\ Description row = types.StringNull)
    /\ resource.Diagnostics resp' = resource.Diagnostics resp.
Proof.
  rewrite ImportState_eq. eexists _, _.
  split; [reflexivity|]. split; [reflexivity|].
  repeat (split; [reflexivity|]).
  split; [|reflexivity].
  intros H. simpl. rewrite H. split; reflexivity.
Qed.

Lemma Equal_refl (d : diag.Diagnostic) : diag.Equal d d = true.
Proof.
  unfold diag.Equal. rewrite !String.eqb_refl.
  now destruct (diag.severity d).
Qed.

Lemma Contains_AddError (diags : diag.Diagnostics) (summary detail : string) :
  diag.Contains (diag.AddError diags summary detail)
    (diag.NewErrorDiagnostic summary detail) = true.
Proof.
  unfold diag.AddError. simpl.
  destruct (diag.Contains diags (diag.NewErrorDiagnostic summary detail)) eqn:E;
    [exact E|].
  unfold diag.Contains. rewrite existsb_app. simpl.
  now rewrite Equal_refl, orb_true_r.
Qed.

(** C9: when [Configure] receives nil provider data it returns at once: no
    diagnostic, and the resource, its client included, as it was. A provider
    object that is an [onepassword.Client] becomes the client, without a
    diagnostic. Only a non-nil object of another type leads to the
    "Unexpected Resource Configure Type" diagnostic, and the client is then
    left as it was. *)
Theorem Configure_spec r (req : ConfigureRequest error Remote)
  (resp : resource.ConfigureResponse) :
  (ProviderData req = nil_any error Remote -> Configure r req resp = (r, resp))
  /\ (forall c, ProviderData req = any_Client c ->
        Configure r req resp = ({| client := Some c |}, resp))
  /\ (forall T, ProviderData req = any_other error Remote T ->
        fst (Configure r req resp) = r
        /\ diag.Contains
             (resource.ConfigureResponse_Diagnostics
                (snd (Configure r req resp)))
             (diag.NewErrorDiagnostic "Unexpected Resource Configure Type"
                ("Expected onepassword.Client, got: " ++ T
                 ++ ". Please report this issue to the provider developers."))
           = true
        /\ (diag.HasError (resource.ConfigureResponse_Diagnostics resp) = false ->
            resource.ConfigureResponse_Diagnostics (snd (Configure r req resp))
            = (resource.ConfigureResponse_Diagnostics resp
               ++ [diag.NewErrorDiagnostic "Unexpected Resource Configure Type"
                     ("Expected onepassword.Client, got: " ++ T
                      ++ ". Please report this issue to the provider developers.")
                  ])%list))
  /\ (snd (Configure r req resp) <> resp ->
      exists T, ProviderData req = any_other error Remote T).
Proof.
  unfold Configure.
  destruct (ProviderData req) as [|c|T].
  - split; [reflexivity|]. split; [discriminate|]. split; [discriminate|].
    intros H. now contradiction H.
  - split; [discriminate|].
    split; [intros c' H; now injection H as <-|].
    split; [discriminate|].
    intros H. now contradiction H.
  - split; [discriminate|]. split; [discriminate|].
    split; [|intros _; now exists T].
    intros T' H. injection H as <-. simpl.
    split; [reflexivity|]. split; [apply Contains_AddError|].
    intros Hd. now rewrite AddError_error_free by exact Hd.
Qed.

End HandlerProperties.

(** ** The properties on the test double *)

Lemma written_rows_have_composite_id_witness :
  (exists row uuid,
      writes (Create testError_Error echoResource createRequest
                emptyResponse startWorld) row
      /\ UUID row = types.StringValue uuid
      /\ ID row = types.StringValue ("vaults/" ++ uuid))
  /\ (exists row uuid,
        writes (ImportState unconfigured importRequest emptyResponse
                  startWorld) row
        /\ UUID row = types.StringValue uuid
        /\ ID row = types.StringValue ("vaults/" ++ uuid)).
Proof.
  destruct (@written_rows_have_composite_id testError testError_Error
              testError_isNotFound nat) as (Hcreate & _ & _ & Himport).
  split.
  - eapply Hcreate; reflexivity.
  - apply Himport.
Defined.

Lemma remote_error_writes_no_state_witness :
  failsWith testError_Error
    (Create testError_Error connectResource createRequest emptyResponse
       startWorld)
    emptyResponse [] "1Password Vault create error" connectRefusal
  /\ failsWith testError_Error
       (Delete testError_Error connectResource deleteRequest priorResponse
          startWorld)
       priorResponse [] "1Password Vault delete error" connectRefusal.
Proof.
  destruct (@remote_error_writes_no_state testError testError_Error
              testError_isNotFound nat) as (Hcreate & _ & Hdelete & _).
  split.
  - eapply (Hcreate connectResource _ createRequest emptyResponse startWorld);
      reflexivity.
  - eapply (Hdelete connectResource _ deleteRequest priorResponse startWorld);
      reflexivity.
Defined.

Lemma Read_classifies_errors_witness :
  exists resp' w',
    Read testError_Error testError_isNotFound driftedResource readRequest
      priorResponse startWorld = Some (resp', w')
    /\ resource.State resp' = None
    /\ resource.Diagnostics resp' = [].
Proof.
  destruct (@Read_classifies_errors testError testError_Error
              testError_isNotFound nat driftedResource _ readRequest
              priorResponse startWorld (ErrNotFound "DDD") 1
              eq_refl eq_refl eq_refl)
    as (resp' & w' & Hrun & Hnf & _).
  exists resp', w'. split; [exact Hrun|].
  destruct (Hnf eq_refl) as (Hs & Hdiags & _).
  split; [exact Hs|exact Hdiags].
Defined.

(** C5, as stated, fails: the plan carries uuid "DDD" and id "vaults/DDD",
    [UpdateVault] succeeds and returns a vault whose [ID] is "ZZZ", and
    [Update] writes uuid "ZZZ" and id "vaults/ZZZ". *)
Lemma Update_rewrites_uuid_counterexample :
  Update testError_Error echoResource updateRequest priorResponse startWorld
  = Some ({| resource.State := Some (vaultRow movedVault);
             resource.Diagnostics := [] |},
          {| remote := 1;
             calls := [CallUpdateVault
                         {| model.ID := "DDD"; model.Name := "New";
                            model.Description := "y" |}] |})
  /\ UUID (tfsdk.Raw updatePlan) = types.StringValue "DDD"
  /\ ID (tfsdk.Raw updatePlan) = types.StringValue "vaults/DDD"
  /\ UUID (vaultRow movedVault) = types.StringValue "ZZZ"
  /\ ID (vaultRow movedVault) = types.StringValue "vaults/ZZZ"
  /\ UUID (vaultRow movedVault) <> UUID (tfsdk.Raw updatePlan)
  /\ ID (vaultRow movedVault) <> ID (tfsdk.Raw updatePlan).
Proof.
  repeat (split; [reflexivity|]). split; discriminate.
Qed.

Lemma Update_writes_returned_identity_witness :
  exists row,
    writes (Update testError_Error echoResource updateRequest priorResponse
              startWorld) row
    /\ UUID row = types.StringValue "ZZZ"
    /\ ID row = types.StringValue "vaults/ZZZ".
Proof.
  destruct (@Update_writes_returned_identity testError testError_Error nat
              echoResource _ updateRequest priorResponse startWorld
              movedVault 1 eq_refl eq_refl eq_refl)
    as (row & Hw & Hu & _ & Hi & _).
  exists row. split; [exact Hw|]. split; [exact Hu|exact Hi].
Defined.

Lemma written_name_and_description_are_returned_witness :
  exists row,
    writes (Update testError_Error echoResource
              {| resource.UpdateRequest_Plan :=
                   {| tfsdk.Raw := priorRow; tfsdk.GetDiags := [] |} |}
              priorResponse startWorld) row
    /\ Name row = types.StringValue "New"
    /\ Description row = types.StringValue "y".
Proof.
  destruct (@written_name_and_description_are_returned testError
              testError_Error testError_isNotFound nat) as (_ & _ & Hupdate).
  eapply (Hupdate echoResource _ _ priorResponse startWorld movedVault);
    reflexivity.
Defined.

Lemma ImportState_writes_id_and_uuid_witness :
  exists resp' row,
    ImportState unconfigured importRequest emptyResponse startWorld
    = Some (resp', startWorld)
    /\ resource.State resp' = Some row
    /\ ID row = types.StringValue "vaults/EEE"
    /\ UUID row = types.StringValue "EEE"
    /\ Name row = types.StringNull
    /\ Description row = types.StringNull.
Proof.
  destruct (ImportState_writes_id_and_uuid unconfigured importRequest
              emptyResponse startWorld)
    as (resp' & row & Hrun & Hs & Hi & Hu & _ & _ & Hnull & _).
  exists resp', row.
  destruct (Hnull eq_refl) as [Hn Hd].
  repeat (split; [assumption|]). assumption.
Defined.

Lemma Configure_spec_witness :
  Configure unconfigured {| ProviderData := nil_any testError nat |}
    {| resource.ConfigureResponse_Diagnostics := [] |}
  = (unconfigured, {| resource.ConfigureResponse_Diagnostics := [] |})
  /\ resource.ConfigureResponse_Diagnostics
       (snd (Configure unconfigured
               {| ProviderData := any_other testError nat "string" |}
               {| resource.ConfigureResponse_Diagnostics := [] |}))
     = [diag.NewErrorDiagnostic "Unexpected Resource Configure Type"
          "Expected onepassword.Client, got: string. Please report this issue to the provider developers."].
Proof.
  split.
  - now apply (Configure_spec unconfigured
                 {| ProviderData := nil_any testError nat |}
                 {| resource.ConfigureResponse_Diagnostics := [] |}).
  - destruct (Configure_spec unconfigured
                {| ProviderData := any_other testError nat "string" |}
                {| resource.ConfigureResponse_Diagnostics := [] |})
      as (_ & _ & Hother & _).
    destruct (Hother "string" eq_refl) as (_ & _ & Hdiags).
    exact (Hdiags eq_refl).
Defined.

(** ** The scenarios of the specification, by evaluation *)

Example decode_examples :
  vaultUUIDFromTerraformID "vaults/AAA" = "AAA"
  /\ vaultUUIDFromTerraformID "teams/AAA" = "AAA"
  /\ vaultUUIDFromTerraformID "AAA" = ""
  /\ vaultUUIDFromTerraformID "vaults/AAA/items" = ""
  /\ vaultUUIDFromTerraformID "/" = ""
  /\ vaultUUIDFromTerraformID "" = "".
Proof. repeat split. Qed.

Example Split_examples :
  strings.Split "" "/" = [""]
  /\ strings.Split "vaults/AAA" "/" = ["vaults"; "AAA"]
  /\ strings.Split "/a//b/" "/" = [""; "a"; ""; "b"; ""].
Proof. repeat split. Qed.

(** Scenario 1: create. *)
Example Create_scenario :
  Create testError_Error echoResource createRequest emptyResponse startWorld
  = Some ({| resource.State :=
               Some {| ID := types.StringValue "vaults/AAA";
                       UUID := types.StringValue "AAA";
                       Name := types.StringValue "Prod";
                       Description := types.StringValue "Production secrets"
                    |};
             resource.Diagnostics := [] |},
          {| remote := 1;
             calls := [CallCreateVault
                         {| model.ID := ""; model.Name := "Prod";
                            model.Description := "Production secrets" |}] |}).
Proof. reflexivity. Qed.

(** Scenario 3: the vault was deleted behind the provider's back. *)
Example Read_drift_scenario :
  Read testError_Error testError_isNotFound driftedResource readRequest
    priorResponse startWorld
  = Some ({| resource.State := None; resource.Diagnostics := [] |},
          {| remote := 1; calls := [CallGetVault "DDD"] |}).
Proof. reflexivity. Qed.

(** Scenario 5: the backend refuses to create vaults. *)
Example Create_refused_scenario :
  Create testError_Error connectResource createRequest emptyResponse startWorld
  = Some ({| resource.State := None;
             resource.Diagnostics :=
               [diag.NewErrorDiagnostic "1Password Vault create error"
                  "Error creating 1Password vault, got error: not supported with 1Password Connect"]
          |},
          {| remote := 1;
             calls := [CallCreateVault
                         {| model.ID := ""; model.Name := "Prod";
                            model.Description := "Production secrets" |}] |}).
Proof. reflexivity. Qed.

(** A failed delete keeps the row. *)
Example Delete_refused_scenario :
  Delete testError_Error connectResource deleteRequest priorResponse startWorld
  = Some ({| resource.State := Some priorRow;
             resource.Diagnostics :=
               [diag.NewErrorDiagnostic "1Password Vault delete error"
                  "Could not delete vault 'DDD', got error: not supported with 1Password Connect"]
          |},
          {| remote := 1; calls := [CallDeleteVault "DDD"] |}).
Proof. reflexivity. Qed.

(** Scenario 6: import, then the read that follows it. *)
Example Import_then_Read_scenario :
  ImportState echoResource importRequest emptyResponse startWorld
  = Some ({| resource.State :=
               Some {| ID := types.StringValue "vaults/EEE";
                       UUID := types.StringValue "EEE";
                       Name := types.StringNull;
                       Description := types.StringNull |};
             resource.Diagnostics := [] |}, startWorld)
  /\ Read testError_Error testError_isNotFound echoResource
       {| resource.ReadRequest_State :=
            {| tfsdk.Raw := {| ID := types.StringValue "vaults/EEE";
                               UUID := types.StringValue "EEE";
                               Name := types.StringNull;
                               Description := types.StringNull |};
               tfsdk.GetDiags := [] |} |}
       emptyResponse startWorld
     = Some ({| resource.State := Some (vaultRow prodVault);
                resource.Diagnostics := [] |},
             {| remote := 1; calls := [CallGetVault "EEE"] |}).
Proof. split; reflexivity. Qed.

(** An import key that contains ["/"] is stored as it is, and the read that
    follows asks the remote for the vault [""]. *)
Example Import_key_with_slash :
  readArgument
    {| resource.ReadRequest_State :=
         {| tfsdk.Raw := {| ID := types.StringValue ("vaults/" ++ "a/b");
                            UUID := types.StringValue "a/b";
                            Name := types.StringNull;
                            Description := types.StringNull |};
            tfsdk.GetDiags := [] |} |}
  = "".
Proof. reflexivity. Qed.

(** * Further properties of the code *)

(** ** Strings *)

Lemma append_empty_r (s : string) : s ++ "" = s.
Proof. induction s as [|c rest IH]; simpl; [reflexivity|now rewrite IH]. Qed.

Lemma append_assoc (a b c : string) : (a ++ b) ++ c = a ++ b ++ c.
Proof. induction a as [|x rest IH]; simpl; [reflexivity|now rewrite IH]. Qed.

Lemma length_append (a b : string) :
  String.length (a ++ b) = String.length a + String.length b.
Proof. induction a as [|x rest IH]; simpl; [reflexivity|now rewrite IH]. Qed.

Lemma append_cancel_l (p a b : string) : p ++ a = p ++ b -> a = b.
Proof.
  induction p as [|x rest IH]; simpl; [trivial|].
  intros H. injection H as H. now apply IH.
Qed.

Lemma append_cancel_r (a b s : string) : a ++ s = b ++ s -> a = b.
Proof.
  revert b. induction a as [|x rest IH]; intros [|y b'] H; simpl in H.
  - reflexivity.
  - apply (f_equal String.length) in H. simpl in H.
    rewrite length_append in H. lia.
  - apply (f_equal String.length) in H. simpl in H.
    rewrite length_append in H. lia.
  - injection H as -> H. f_equal. now apply IH.
Qed.

(** Two strings that agree up to and after the first occurrence of [c]
    agree on both sides of it. *)
Lemma cut_at_first (c : ascii) (a1 a2 b1 b2 : string) :
  strings.Count a1 c = 0 -> strings.Count a2 c = 0 ->
  a1 ++ String c b1 = a2 ++ String c b2 -> a1 = a2 /\ b1 = b2.
Proof.
  revert a2. induction a1 as [|x rest IH]; intros [|y a2']; simpl.
  - intros _ _ H. now injection H.
  - intros _ Hy H. injection H as -> _.
    rewrite Ascii.eqb_refl in Hy. discriminate.
  - intros Hx _ H. injection H as -> _.
    rewrite Ascii.eqb_refl in Hx. discriminate.
  - intros Hx Hy H. injection H as -> H.
    destruct (Ascii.eqb y c); [discriminate|].
    destruct (IH a2' Hx Hy H) as [-> ->]. now split.
Qed.

Lemma IsInfix_trans (a b c : string) : IsInfix a b -> IsInfix b c -> IsInfix a c.
Proof.
  intros (p & q & ->) (p' & q' & ->).
  exists (p' ++ p), (q ++ q'). now rewrite !append_assoc.
Qed.

(** ** The decoder, beyond the round trip *)

(** X1: whatever its input, [vaultUUIDFromTerraformID] returns a string
    without ["/"] that is a suffix of the input, and composing and decoding
    its result again gives the result back: the round trip holds on every
    value the decoder can produce. *)
Theorem decoded_uuid_is_clean (s : string) :
  strings.Count (vaultUUIDFromTerraformID s) "/" = 0
  /\ (exists before, s = before ++ vaultUUIDFromTerraformID s)
  /\ vaultUUIDFromTerraformID ("vaults/" ++ vaultUUIDFromTerraformID s)
     = vaultUUIDFromTerraformID s.
Proof.
  destruct (Nat.eq_dec (strings.Count s "/") 1) as [E|E].
  - destruct (Count_one_inv _ _ E) as (a & b & -> & Ha & Hb).
    change (String "/" b) with ("/" ++ b).
    rewrite (vaultUUIDFromTerraformID_pair _ _ Ha Hb).
    split; [exact Hb|]. split; [|now apply decompose_compose].
    exists (a ++ "/"). now rewrite append_assoc.
  - rewrite (vaultUUIDFromTerraformID_malformed _ E).
    split; [reflexivity|]. split; [|reflexivity].
    exists s. now rewrite append_empty_r.
Qed.

(** ** The configuration builder of the acceptance test *)

Lemma testAccVaultResourceConfig_cut (name description : string) :
  exists before after,
    testAccVaultResourceConfig name description
    = before ++ name
      ++ String "034" (after ++ description ++ dquote ++ newline ++ "}" ++ newline)
    /\ forall name' description',
        testAccVaultResourceConfig name' description'
        = before ++ name'
          ++ String "034"
               (after ++ description' ++ dquote ++ newline ++ "}" ++ newline).
Proof.
  eexists _, (newline ++ "  description = " ++ dquote).
  split; [reflexivity|]. intros; reflexivity.
Qed.

(** X17: [testAccVaultResourceConfig] splices its arguments in unescaped.
    Two calls whose names hold no double quote build the same text only
    from the same name and description; with a double quote in the name,
    different arguments can build the same text. *)
Theorem testAccVaultResourceConfig_injective :
  (forall name1 description1 name2 description2,
      strings.Count name1 "034" = 0 ->
      strings.Count name2 "034" = 0 ->
      testAccVaultResourceConfig name1 description1
      = testAccVaultResourceConfig name2 description2 ->
      name1 = name2 /\ description1 = description2)
  /\ (exists name1 description1 name2 description2,
        name1 <> name2
        /\ testAccVaultResourceConfig name1 description1
           = testAccVaultResourceConfig name2 description2).
Proof.
  split.
  - intros n1 d1 n2 d2 H1 H2 H.
    destruct (testAccVaultResourceConfig_cut n1 d1) as (p & m & _ & Hshape).
    rewrite (Hshape n1 d1), (Hshape n2 d2) in H.
    apply append_cancel_l in H.
    destruct (@cut_at_first _ _ _ _ _ H1 H2 H) as [-> Hrest].
    split; [reflexivity|].
    apply append_cancel_l in Hrest. now apply append_cancel_r in Hrest.
  - exists ("x" ++ dquote ++ newline ++ "  description = " ++ dquote ++ "y"),
      "z", "x",
      ("y" ++ dquote ++ newline ++ "  description = " ++ dquote ++ "z").
    split; [discriminate|reflexivity].
Qed.

Lemma testAccVaultResourceConfig_injective_witness :
  strings.Count "Test Vault" "034" = 0
  /\ testAccVaultResourceConfig "Test Vault" "A test vault"
     = testAccVaultResourceConfig "Test Vault" "A test vault"
  /\ ("Test Vault" = "Test Vault" /\ "A test vault" = "A test vault").
Proof.
  destruct testAccVaultResourceConfig_injective as [Hinj _].
  split; [reflexivity|]. split; [reflexivity|].
  apply Hinj; reflexivity.
Defined.

(** ** The diagnostics accumulator, beyond the error-free case *)

Lemma Contains_isError (diags : diag.Diagnostics) (d : diag.Diagnostic) :
  diag.Contains diags d = true -> diag.isError d = true ->
  diag.HasError diags = true.
Proof.
  unfold diag.Contains, diag.HasError.
  induction diags as [|x rest IH]; simpl; [discriminate|].
  intros H Hd. apply orb_true_iff in H as [H|H].
  - apply Equal_isError in H. rewrite H, Hd. reflexivity.
  - rewrite (IH H Hd). apply orb_true_r.
Qed.

Lemma HasError_Append (diags new : diag.Diagnostics) :
  diag.HasError (diag.Append diags new)
  = diag.HasError diags || diag.HasError new.
Proof.
  revert diags. induction new as [|d rest IH]; intros diags; simpl.
  - now rewrite orb_false_r.
  - destruct (diag.Contains diags d) eqn:E; rewrite IH.
    + destruct (diag.isError d) eqn:Hd; [|reflexivity].
      now rewrite (Contains_isError _ _ E Hd).
    + unfold diag.HasError at 1. rewrite existsb_app. simpl.
      fold (diag.HasError diags). now rewrite orb_false_r, orb_assoc.
Qed.

Lemma Append_extends (diags new : diag.Diagnostics) :
  exists added,
    diag.Append diags new = (diags ++ added)%list
    /\ length added <= length new.
Proof.
  revert diags. induction new as [|d rest IH]; intros diags; simpl.
  - exists []. now rewrite app_nil_r.
  - destruct (diag.Contains diags d).
    + destruct (IH diags) as (added & -> & Hlen). exists added. split; [reflexivity|lia].
    + destruct (IH (diags ++ [d])%list) as (added & -> & Hlen).
      exists (d :: added). rewrite <- app_assoc. split; [reflexivity|simpl; lia].
Qed.

Lemma ErrorsCount_app (a b : diag.Diagnostics) :
  diag.ErrorsCount (a ++ b)%list = diag.ErrorsCount a + diag.ErrorsCount b.
Proof. unfold diag.ErrorsCount. now rewrite filter_app, length_app. Qed.

Lemma ErrorsCount_le_length (a : diag.Diagnostics) :
  diag.ErrorsCount a <= length a.
Proof. unfold diag.ErrorsCount. apply filter_length_le. Qed.

Lemma AddError_extends (diags : diag.Diagnostics) (summary detail : string) :
  exists added,
    diag.AddError diags summary detail = (diags ++ added)%list
    /\ diag.ErrorsCount (diag.AddError diags summary detail)
       <= diag.ErrorsCount diags + 1.
Proof.
  destruct (Append_extends diags [diag.NewErrorDiagnostic summary detail])
    as (added & E & Hlen).
  exists added. unfold diag.AddError. rewrite E. split; [reflexivity|].
  rewrite ErrorsCount_app.
  pose proof (ErrorsCount_le_length added). simpl in Hlen. lia.
Qed.

(** ** The handlers, every path at once *)

Section FurtherHandlerProperties.

Variable error : Type.
Variable Error : error -> string.
Variable isNotFoundError : error -> bool.
Variable Remote : Type.

Implicit Types (r : OnePasswordVaultResource error Remote).
Implicit Types (c : Client error Remote) (w : World Remote).
Implicit Types (resp : resource.Response) (err : error) (rem : Remote).

Ltac nil_client H Hd Hc :=
  unfold Create, Read, Update, Delete, decoded, tfsdk.Get in *;
  simpl in *; rewrite Hd in H; unfold bind, invoke in H;
  rewrite Hc in H; discriminate H.

(** A run of [Create] that returns took one of three paths. *)
Lemma Create_inv r req resp w resp' w' :
  Create Error r req resp w = Some (resp', w') ->
  (diag.HasError
     (resource.Diagnostics (decoded resp (resource.CreateRequest_Plan req)))
   = true
   /\ resp' = decoded resp (resource.CreateRequest_Plan req) /\ w' = w)
  \/ (exists c vault rem,
        client r = Some c
        /\ diag.HasError
             (resource.Diagnostics
                (decoded resp (resource.CreateRequest_Plan req))) = false
        /\ CreateVault c (createArgument req) (remote w) = (inl vault, rem)
        /\ resp' = resource.WithState
                     (decoded resp (resource.CreateRequest_Plan req))
                     (Some (vaultRow vault))
        /\ w' = {| remote := rem;
                   calls := (calls w
                             ++ [CallCreateVault (createArgument req)])%list |})
  \/ (exists c err rem,
        client r = Some c
        /\ diag.HasError
             (resource.Diagnostics
                (decoded resp (resource.CreateRequest_Plan req))) = false
        /\ CreateVault c (createArgument req) (remote w) = (inr err, rem)
        /\ resp' = resource.AddError
                     (decoded resp (resource.CreateRequest_Plan req))
                     "1Password Vault create error"
                     ("Error creating 1Password vault, got error: "
                      ++ Error err)
        /\ w' = {| remote := rem;
                   calls := (calls w
                             ++ [CallCreateVault (createArgument req)])%list |}).
Proof.
  intros H.
  destruct (diag.HasError
              (resource.Diagnostics
                 (decoded resp (resource.CreateRequest_Plan req)))) eqn:Hd.
  - left. rewrite Create_decode_error in H by exact Hd.
    injection H as <- <-. auto.
  - right. destruct (client r) as [c|] eqn:Hc; [|nil_client H Hd Hc].
    destruct (CreateVault c (createArgument req) (remote w))
      as [[vault|err] rem] eqn:Hr.
    + left. rewrite (@Create_ok _ Error _ r c req resp w vault rem Hc Hd Hr) in H.
      injection H as <- <-. exists c, vault, rem. auto.
    + right.
      rewrite (@Create_error _ Error _ r c req resp w err rem Hc Hd Hr) in H.
      injection H as <- <-. exists c, err, rem. auto.
Qed.

(** A run of [Read] that returns took one of four paths. *)
Lemma Read_inv r req resp w resp' w' :
  Read Error isNotFoundError r req resp w = Some (resp', w') ->
  (diag.HasError
     (resource.Diagnostics (decoded resp (resource.ReadRequest_State req)))
   = true
   /\ resp' = decoded resp (resource.ReadRequest_State req) /\ w' = w)
  \/ (exists c rem,
        client r = Some c
        /\ diag.HasError
             (resource.Diagnostics
                (decoded resp (resource.ReadRequest_State req))) = false
        /\ w' = {| remote := rem;
                   calls := (calls w ++ [CallGetVault (readArgument req)])%list
                |}
        /\ ((exists vault,
               GetVault c (readArgument req) (remote w) = (inl vault, rem)
               /\ resp' = resource.WithState
                            (decoded resp (resource.ReadRequest_State req))
                            (Some (vaultRow vault)))
            \/ (exists err,
                  GetVault c (readArgument req) (remote w) = (inr err, rem)
                  /\ isNotFoundError err = true
                  /\ resp' = resource.WithState
                               (decoded resp (resource.ReadRequest_State req))
                               None)
            \/ (exists err,
                  GetVault c (readArgument req) (remote w) = (inr err, rem)
                  /\ isNotFoundError err = false
                  /\ resp' = resource.AddError
                               (decoded resp (resource.ReadRequest_State req))
                               "1Password Vault read error"
                               ("Could not get vault '" ++ readArgument req
                                ++ "', got error: " ++ Error err)))).
Proof.
  intros H.
  destruct (diag.HasError
              (resource.Diagnostics
                 (decoded resp (resource.ReadRequest_State req)))) eqn:Hd.
  - left. rewrite Read_decode_error in H by exact Hd.
    injection H as <- <-. auto.
  - right. destruct (client r) as [c|] eqn:Hc; [|nil_client H Hd Hc].
    destruct (GetVault c (readArgument req) (remote w))
      as [[vault|err] rem] eqn:Hr.
    + rewrite (@Read_ok _ Error isNotFoundError _ r c req resp w vault rem
                 Hc Hd Hr) in H.
      injection H as <- <-. exists c, rem.
      repeat (split; [reflexivity|]). left. now exists vault.
    + destruct (isNotFoundError err) eqn:Hnf.
      * rewrite (@Read_not_found _ Error isNotFoundError _ r c req resp w err
                   rem Hc Hd Hr Hnf) in H.
        injection H as <- <-. exists c, rem.
        repeat (split; [reflexivity|]). right; left. now exists err.
      * rewrite (@Read_error _ Error isNotFoundError _ r c req resp w err rem
                   Hc Hd Hr Hnf) in H.
        injection H as <- <-. exists c, rem.
        repeat (split; [reflexivity|]). right; right. now exists err.
Qed.

(** A run of [Update] that returns took one of three paths. *)
Lemma Update_inv r req resp w resp' w' :
  Update Error r req resp w = Some (resp', w') ->
  (diag.HasError
     (resource.Diagnostics (decoded resp (resource.UpdateRequest_Plan req)))
   = true
   /\ resp' = decoded resp (resource.UpdateRequest_Plan req) /\ w' = w)
  \/ (exists c vault rem,
        client r = Some c
        /\ diag.HasError
             (resource.Diagnostics
                (decoded resp (resource.UpdateRequest_Plan req))) = false
        /\ UpdateVault c (updateArgument req) (remote w) = (inl vault, rem)
        /\ resp' = resource.WithState
                     (decoded resp (resource.UpdateRequest_Plan req))
                     (Some (vaultRow vault))
        /\ w' = {| remote := rem;
                   calls := (calls w
                             ++ [CallUpdateVault (updateArgument req)])%list |})
  \/ (exists c err rem,
        client r = Some c
        /\ diag.HasError
             (resource.Diagnostics
                (decoded resp (resource.UpdateRequest_Plan req))) = false
        /\ UpdateVault c (updateArgument req) (remote w) = (inr err, rem)
        /\ resp' = resource.AddError
                     (decoded resp (resource.UpdateRequest_Plan req))
                     "1Password Vault update error"
                     ("Could not update vault '"
                      ++ model.ID (updateArgument req)
                      ++ "', got error: " ++ Error err)
        /\ w' = {| remote := rem;
                   calls := (calls w
                             ++ [CallUpdateVault (updateArgument req)])%list |}).
Proof.
  intros H.
  destruct (diag.HasError
              (resource.Diagnostics
                 (decoded resp (resource.UpdateRequest_Plan req)))) eqn:Hd.
  - left. rewrite Update_decode_error in H by exact Hd.
    injection H as <- <-. auto.
  - right. destruct (client r) as [c|] eqn:Hc; [|nil_client H Hd Hc].
    destruct (UpdateVault c (updateArgument req) (remote w))
      as [[vault|err] rem] eqn:Hr.
    + left. rewrite (@Update_ok _ Error _ r c req resp w vault rem Hc Hd Hr) in H.
      injection H as <- <-. exists c, vault, rem. auto.
    + right.
      rewrite (@Update_error _ Error _ r c req resp w err rem Hc Hd Hr) in H.
      injection H as <- <-. exists c, err, rem. auto.
Qed.

(** A run of [Delete] that returns took one of three paths. *)
Lemma Delete_inv r req resp w resp' w' :
  Delete Error r req resp w = Some (resp', w') ->
  (diag.HasError
     (resource.Diagnostics (decoded resp (resource.DeleteRequest_State req)))
   = true
   /\ resp' = decoded resp (resource.DeleteRequest_State req) /\ w' = w)
  \/ (exists c rem,
        client r = Some c
        /\ diag.HasError
             (resource.Diagnostics
                (decoded resp (resource.DeleteRequest_State req))) = false
        /\ DeleteVault c (deleteArgument req) (remote w) = (None, rem)
        /\ resp' = decoded resp (resource.DeleteRequest_State req)
        /\ w' = {| remote := rem;
                   calls := (calls w
                             ++ [CallDeleteVault (deleteArgument req)])%list |})
  \/ (exists c err rem,
        client r = Some c
        /\ diag.HasError
             (resource.Diagnostics
                (decoded resp (resource.DeleteRequest_State req))) = false
        /\ DeleteVault c (deleteArgument req) (remote w) = (Some err, rem)
        /\ resp' = resource.AddError
                     (decoded resp (resource.DeleteRequest_State req))
                     "1Password Vault delete error"
                     ("Could not delete vault '" ++ deleteArgument req
                      ++ "', got error: " ++ Error err)
        /\ w' = {| remote := rem;
                   calls := (calls w
                             ++ [CallDeleteVault (deleteArgument req)])%list |}).
Proof.
  intros H.
  destruct (diag.HasError
              (resource.Diagnostics
                 (decoded resp (resource.DeleteRequest_State req)))) eqn:Hd.
  - left. rewrite Delete_decode_error in H by exact Hd.
    injection H as <- <-. auto.
  - right. destruct (client r) as [c|] eqn:Hc; [|nil_client H Hd Hc].
    destruct (DeleteVault c (deleteArgument req) (remote w))
      as [[err|] rem] eqn:Hr.
    + right.
      rewrite (@Delete_error _ Error _ r c req resp w err rem Hc Hd Hr) in H.
      injection H as <- <-. exists c, err, rem. auto.
    + left. rewrite (@Delete_ok _ Error _ r c req resp w rem Hc Hd Hr) in H.
      injection H as <- <-. exists c, rem. auto.
Qed.

Ltac returns H :=
  unfold Create, Read, Update, Delete, decoded, tfsdk.Get in *;
  simpl in *;
  match type of H with
  | context [diag.HasError ?d] => destruct (diag.HasError d) eqn:Hd
  end;
  [unfold ret in H; discriminate H|];
  unfold bind, invoke, ret in H;
  match type of H with
  | context [client ?r] => destruct (client r) as [c|] eqn:Hc
  end;
  [exfalso|split; reflexivity];
  match type of H with
  | context [let (_, _) := ?e in _] => destruct e as [[?|] ?]
  end;
  try match type of H with
      | context [isNotFoundError ?e] => destruct (isNotFoundError e)
      end;
  discriminate H.

Ltac panics Hc Hd :=
  unfold Create, Read, Update, Delete, decoded, tfsdk.Get in *;
  simpl in *; rewrite Hd; unfold bind, invoke; now rewrite Hc.

(** X4: a handler panics exactly when it reaches its remote call with a nil
    client: [Create], [Read], [Update] and [Delete] fail to return if and
    only if the resource has no client and decoding left no error in the
    diagnostics; [ImportState], which calls nothing, always returns. *)
Theorem handlers_panic_iff_unconfigured r resp w :
  (forall req,
      Create Error r req resp w = None
      <-> client r = None
          /\ diag.HasError
               (resource.Diagnostics
                  (decoded resp (resource.CreateRequest_Plan req))) = false)
  /\ (forall req,
        Read Error isNotFoundError r req resp w = None
        <-> client r = None
            /\ diag.HasError
                 (resource.Diagnostics
                    (decoded resp (resource.ReadRequest_State req))) = false)
  /\ (forall req,
        Update Error r req resp w = None
        <-> client r = None
            /\ diag.HasError
                 (resource.Diagnostics
                    (decoded resp (resource.UpdateRequest_Plan req))) = false)
  /\ (forall req,
        Delete Error r req resp w = None
        <-> client r = None
            /\ diag.HasError
                 (resource.Diagnostics
                    (decoded resp (resource.DeleteRequest_State req))) = false)
  /\ (forall req, ImportState r req resp w <> None).
Proof.
  split; [|split; [|split; [|split]]].
  1-4: intros req; split; [intros H|intros [Hc Hd]; panics Hc Hd].
  1-4: returns H.
  intros req. rewrite ImportState_eq. discriminate.
Qed.

Lemma HasError_decoded resp (d : tfsdk.Data) :
  diag.HasError (resource.Diagnostics (decoded resp d))
  = diag.HasError (resource.Diagnostics resp)
    || diag.HasError (tfsdk.GetDiags d).
Proof. unfold decoded. simpl. apply HasError_Append. Qed.

Lemma HasError_AddError resp (summary detail : string) :
  diag.HasError (resource.Diagnostics (resource.AddError resp summary detail))
  = true.
Proof.
  unfold resource.AddError, diag.AddError. simpl.
  change (diag.HasError
            (diag.Append (resource.Diagnostics resp)
               [diag.NewErrorDiagnostic summary detail]) = true).
  rewrite HasError_Append. apply orb_true_r.
Qed.

(** X5: a handler that finds an error in the diagnostics after decoding,
    whether the response already carried it or the decoding reported it,
    returns at once: no remote call is made (a nil client is not even
    looked at), and the state is left as it was. *)
Theorem decode_error_short_circuits r resp w :
  (forall req,
      diag.HasError (resource.Diagnostics resp)
      || diag.HasError (tfsdk.GetDiags (resource.CreateRequest_Plan req))
      = true ->
      returnsAtOnce (Create Error r req resp w) resp
        (resource.CreateRequest_Plan req) w)
  /\ (forall req,
        diag.HasError (resource.Diagnostics resp)
        || diag.HasError (tfsdk.GetDiags (resource.ReadRequest_State req))
        = true ->
        returnsAtOnce (Read Error isNotFoundError r req resp w) resp
          (resource.ReadRequest_State req) w)
  /\ (forall req,
        diag.HasError (resource.Diagnostics resp)
        || diag.HasError (tfsdk.GetDiags (resource.UpdateRequest_Plan req))
        = true ->
        returnsAtOnce (Update Error r req resp w) resp
          (resource.UpdateRequest_Plan req) w)
  /\ (forall req,
        diag.HasError (resource.Diagnostics resp)
        || diag.HasError (tfsdk.GetDiags (resource.DeleteRequest_State req))
        = true ->
        returnsAtOnce (Delete Error r req resp w) resp
          (resource.DeleteRequest_State req) w).
Proof.
  split; [|split; [|split]]; intros req H; rewrite <- HasError_decoded in H.
  - rewrite Create_decode_error by exact H.
    eexists. split; [reflexivity|]. split; reflexivity.
  - rewrite Read_decode_error by exact H.
    eexists. split; [reflexivity|]. split; reflexivity.
  - rewrite Update_decode_error by exact H.
    eexists. split; [reflexivity|]. split; reflexivity.
  - rewrite Delete_decode_error by exact H.
    eexists. split; [reflexivity|]. split; reflexivity.
Qed.

(** X6: no handler makes more than one remote call, and each makes only its
    own: a run of [Create] leaves the world as it was or after one
    [CreateVault] call with the vault built from the plan, and likewise
    [Read] with [GetVault], [Update] with [UpdateVault] and [Delete] with
    [DeleteVault]; [ImportState] never touches the world. *)
Theorem handlers_call_remote_at_most_once r resp w resp' w' :
  (forall req,
      Create Error r req resp w = Some (resp', w') ->
      callsAtMost w w' (CallCreateVault (createArgument req)))
  /\ (forall req,
        Read Error isNotFoundError r req resp w = Some (resp', w') ->
        callsAtMost w w' (CallGetVault (readArgument req)))
  /\ (forall req,
        Update Error r req resp w = Some (resp', w') ->
        callsAtMost w w' (CallUpdateVault (updateArgument req)))
  /\ (forall req,
        Delete Error r req resp w = Some (resp', w') ->
        callsAtMost w w' (CallDeleteVault (deleteArgument req)))
  /\ (forall req, ImportState r req resp w = Some (resp', w') -> w' = w).
Proof.
  split; [|split; [|split; [|split]]]; intros req H.
  - destruct (Create_inv _ _ _ _ H)
      as [(_ & _ & ->)|[(c & v & rem & _ & _ & _ & _ & ->)
                       |(c & e & rem & _ & _ & _ & _ & ->)]];
      [now left|right; now exists rem..].
  - destruct (Read_inv _ _ _ _ H) as [(_ & _ & ->)|(c & rem & _ & _ & -> & _)];
      [now left|right; now exists rem].
  - destruct (Update_inv _ _ _ _ H)
      as [(_ & _ & ->)|[(c & v & rem & _ & _ & _ & _ & ->)
                       |(c & e & rem & _ & _ & _ & _ & ->)]];
      [now left|right; now exists rem..].
  - destruct (Delete_inv _ _ _ _ H)
      as [(_ & _ & ->)|[(c & rem & _ & _ & _ & _ & ->)
                       |(c & e & rem & _ & _ & _ & _ & ->)]];
      [now left|right; now exists rem..].
  - rewrite ImportState_eq in H. now injection H.
Qed.

Lemma onlyAdds_decoded resp (d : tfsdk.Data) : onlyAdds resp (decoded resp d) d.
Proof.
  unfold onlyAdds, decoded. simpl.
  destruct (Append_extends (resource.Diagnostics resp) (tfsdk.GetDiags d))
    as (added & E & _).
  split; [exists added; exact E|lia].
Qed.

Lemma onlyAdds_WithState resp (d : tfsdk.Data) (s : tfsdk.State) :
  onlyAdds resp (resource.WithState (decoded resp d) s) d.
Proof. exact (onlyAdds_decoded resp d). Qed.

Lemma onlyAdds_AddError resp (d : tfsdk.Data) (summary detail : string) :
  onlyAdds resp (resource.AddError (decoded resp d) summary detail) d.
Proof.
  unfold onlyAdds, decoded. simpl.
  destruct (Append_extends (resource.Diagnostics resp) (tfsdk.GetDiags d))
    as (added & E & _).
  destruct (AddError_extends
              (diag.Append (resource.Diagnostics resp) (tfsdk.GetDiags d))
              summary detail) as (added' & E' & Hle).
  split; [|exact Hle].
  exists (added ++ added')%list. rewrite E', E. now rewrite app_assoc.
Qed.

(** X7: a handler never removes or reorders a diagnostic: after any run the
    diagnostics of the response start with the ones it was given, and hold
    at most one error more than the decoding of the request left. *)
Theorem handlers_only_add_diagnostics r resp w resp' w' :
  (forall req,
      Create Error r req resp w = Some (resp', w') ->
      onlyAdds resp resp' (resource.CreateRequest_Plan req))
  /\ (forall req,
        Read Error isNotFoundError r req resp w = Some (resp', w') ->
        onlyAdds resp resp' (resource.ReadRequest_State req))
  /\ (forall req,
        Update Error r req resp w = Some (resp', w') ->
        onlyAdds resp resp' (resource.UpdateRequest_Plan req))
  /\ (forall req,
        Delete Error r req resp w = Some (resp', w') ->
        onlyAdds resp resp' (resource.DeleteRequest_State req)).
Proof.
  split; [|split; [|split]]; intros req H.
  - destruct (Create_inv _ _ _ _ H)
      as [(_ & -> & _)|[(c & v & rem & _ & _ & _ & -> & _)
                       |(c & e & rem & _ & _ & _ & -> & _)]].
    + apply onlyAdds_decoded.
    + apply onlyAdds_WithState.
    + apply onlyAdds_AddError.
  - destruct (Read_inv _ _ _ _ H)
      as [(_ & -> & _)
         |(c & rem & _ & _ & _ & [(v & _ & ->)
                                 |[(e & _ & _ & ->)|(e & _ & _ & ->)]])].
    + apply onlyAdds_decoded.
    + apply onlyAdds_WithState.
    + apply onlyAdds_WithState.
    + apply onlyAdds_AddError.
  - destruct (Update_inv _ _ _ _ H)
      as [(_ & -> & _)|[(c & v & rem & _ & _ & _ & -> & _)
                       |(c & e & rem & _ & _ & _ & -> & _)]].
    + apply onlyAdds_decoded.
    + apply onlyAdds_WithState.
    + apply onlyAdds_AddError.
  - destruct (Delete_inv _ _ _ _ H)
      as [(_ & -> & _)|[(c & rem & _ & _ & _ & -> & _)
                       |(c & e & rem & _ & _ & _ & -> & _)]].
    + apply onlyAdds_decoded.
    + apply onlyAdds_decoded.
    + apply onlyAdds_AddError.
Qed.

(** X8: the response of a handler carries no error exactly when nothing
    failed: decoding left no error and the remote call succeeded, where
    for [Read] a not-found answer counts as success. *)
Theorem no_error_iff_remote_success r resp w resp' w' :
  (forall req,
      Create Error r req resp w = Some (resp', w') ->
      (diag.HasError (resource.Diagnostics resp') = false
       <-> diag.HasError
             (resource.Diagnostics
                (decoded resp (resource.CreateRequest_Plan req))) = false
           /\ exists c vault rem,
               client r = Some c
               /\ CreateVault c (createArgument req) (remote w)
                  = (inl vault, rem)))
  /\ (forall req,
        Read Error isNotFoundError r req resp w = Some (resp', w') ->
        (diag.HasError (resource.Diagnostics resp') = false
         <-> diag.HasError
               (resource.Diagnostics
                  (decoded resp (resource.ReadRequest_State req))) = false
             /\ exists c rem,
                 client r = Some c
                 /\ ((exists vault,
                        GetVault c (readArgument req) (remote w)
                        = (inl vault, rem))
                     \/ (exists err,
                           GetVault c (readArgument req) (remote w)
                           = (inr err, rem)
                           /\ isNotFoundError err = true))))
  /\ (forall req,
        Update Error r req resp w = Some (resp', w') ->
        (diag.HasError (resource.Diagnostics resp') = false
         <-> diag.HasError
               (resource.Diagnostics
                  (decoded resp (resource.UpdateRequest_Plan req))) = false
             /\ exists c vault rem,
                 client r = Some c
                 /\ UpdateVault c (updateArgument req) (remote w)
                    = (inl vault, rem)))
  /\ (forall req,
        Delete Error r req resp w = Some (resp', w') ->
        (diag.HasError (resource.Diagnostics resp') = false
         <-> diag.HasError
               (resource.Diagnostics
                  (decoded resp (resource.DeleteRequest_State req))) = false
             /\ exists c rem,
                 client r = Some c
                 /\ DeleteVault c (deleteArgument req) (remote w)
                    = (None, rem))).
Proof.
  split; [|split; [|split]]; intros req H.
  - destruct (Create_inv _ _ _ _ H)
      as [(Hd & -> & _)|[(c & v & rem & Hc & Hd & Hr & -> & _)
                        |(c & e & rem & Hc & Hd & Hr & -> & _)]].
    + split; [congruence|intros [Hd' _]; congruence].
    + split; [intros _; split; [exact Hd|now exists c, v, rem]|intros _; exact Hd].
    + rewrite HasError_AddError.
      split; [discriminate|].
      intros (_ & c' & v' & rem' & Hc' & Hr'). congruence.
  - destruct (Read_inv _ _ _ _ H)
      as [(Hd & -> & _)
         |(c & rem & Hc & Hd & _ & [(v & Hr & ->)
                                   |[(e & Hr & Hnf & ->)|(e & Hr & Hnf & ->)]])].
    + split; [congruence|intros [Hd' _]; congruence].
    + split; [intros _; split; [exact Hd|]|intros _; exact Hd].
      exists c, rem. split; [exact Hc|left; now exists v].
    + split; [intros _; split; [exact Hd|]|intros _; exact Hd].
      exists c, rem. split; [exact Hc|right; now exists e].
    + rewrite HasError_AddError.
      split; [discriminate|].
      intros (_ & c' & rem' & Hc' & [(v' & Hr')|(e' & Hr' & Hnf')]);
        congruence.
  - destruct (Update_inv _ _ _ _ H)
      as [(Hd & -> & _)|[(c & v & rem & Hc & Hd & Hr & -> & _)
                        |(c & e & rem & Hc & Hd & Hr & -> & _)]].
    + split; [congruence|intros [Hd' _]; congruence].
    + split; [intros _; split; [exact Hd|now exists c, v, rem]|intros _; exact Hd].
    + rewrite HasError_AddError.
      split; [discriminate|].
      intros (_ & c' & v' & rem' & Hc' & Hr'). congruence.
  - destruct (Delete_inv _ _ _ _ H)
      as [(Hd & -> & _)|[(c & rem & Hc & Hd & Hr & -> & _)
                        |(c & e & rem & Hc & Hd & Hr & -> & _)]].
    + split; [congruence|intros [Hd' _]; congruence].
    + split; [intros _; split; [exact Hd|now exists c, rem]|intros _; exact Hd].
    + rewrite HasError_AddError.
      split; [discriminate|].
      intros (_ & c' & rem' & Hc' & Hr'). congruence.
Qed.

(** X9: [Create], [Read], [Update] and [Delete] never both report an error
    and change the state: whenever the response of a run carries an error,
    its state is the state the handler was given. *)
Theorem error_means_state_untouched r resp w resp' w' :
  diag.HasError (resource.Diagnostics resp') = true ->
  (forall req,
      Create Error r req resp w = Some (resp', w') ->
      resource.State resp' = resource.State resp)
  /\ (forall req,
        Read Error isNotFoundError r req resp w = Some (resp', w') ->
        resource.State resp' = resource.State resp)
  /\ (forall req,
        Update Error r req resp w = Some (resp', w') ->
        resource.State resp' = resource.State resp)
  /\ (forall req,
        Delete Error r req resp w = Some (resp', w') ->
        resource.State resp' = resource.State resp).
Proof.
  intros Herr. split; [|split; [|split]]; intros req H.
  - destruct (Create_inv _ _ _ _ H)
      as [(_ & -> & _)|[(c & v & rem & _ & Hd & _ & -> & _)
                       |(c & e & rem & _ & _ & _ & -> & _)]];
      [reflexivity|unfold resource.WithState in Herr; cbn [resource.Diagnostics] in Herr; congruence|reflexivity].
  - destruct (Read_inv _ _ _ _ H)
      as [(_ & -> & _)
         |(c & rem & _ & Hd & _ & [(v & _ & ->)
                                  |[(e & _ & _ & ->)|(e & _ & _ & ->)]])];
      [reflexivity|unfold resource.WithState in Herr; cbn [resource.Diagnostics] in Herr; congruence|unfold resource.WithState in Herr; cbn [resource.Diagnostics] in Herr; congruence
      |reflexivity].
  - destruct (Update_inv _ _ _ _ H)
      as [(_ & -> & _)|[(c & v & rem & _ & Hd & _ & -> & _)
                       |(c & e & rem & _ & _ & _ & -> & _)]];
      [reflexivity|unfold resource.WithState in Herr; cbn [resource.Diagnostics] in Herr; congruence|reflexivity].
  - now apply (Delete_keeps_state Error r req resp w H).
Qed.

(** X10: what a handler does depends on its request only through the
    diagnostics of the decoding and the argument of its remote call: two
    plans with the same name and description strings make [Create] behave
    the same whatever their [id] and [uuid] hold (and a null or unknown
    string is not told from an empty one); [Read] only looks at the uuid
    decoded from [id]; [Update] at [uuid], [name] and [description];
    [Delete] at [uuid] alone. *)
Theorem handlers_depend_on_argument_only r resp w :
  (forall req1 req2,
      tfsdk.GetDiags (resource.CreateRequest_Plan req1)
      = tfsdk.GetDiags (resource.CreateRequest_Plan req2) ->
      createArgument req1 = createArgument req2 ->
      Create Error r req1 resp w = Create Error r req2 resp w)
  /\ (forall req1 req2,
        tfsdk.GetDiags (resource.ReadRequest_State req1)
        = tfsdk.GetDiags (resource.ReadRequest_State req2) ->
        readArgument req1 = readArgument req2 ->
        Read Error isNotFoundError r req1 resp w
        = Read Error isNotFoundError r req2 resp w)
  /\ (forall req1 req2,
        tfsdk.GetDiags (resource.UpdateRequest_Plan req1)
        = tfsdk.GetDiags (resource.UpdateRequest_Plan req2) ->
        updateArgument req1 = updateArgument req2 ->
        Update Error r req1 resp w = Update Error r req2 resp w)
  /\ (forall req1 req2,
        tfsdk.GetDiags (resource.DeleteRequest_State req1)
        = tfsdk.GetDiags (resource.DeleteRequest_State req2) ->
        deleteArgument req1 = deleteArgument req2 ->
        Delete Error r req1 resp w = Delete Error r req2 resp w).
Proof.
  split; [|split; [|split]];
    intros [[raw1 ds1]] [[raw2 ds2]]; simpl; intros <- Harg.
  - unfold createArgument in Harg.
    cbn [resource.CreateRequest_Plan tfsdk.Raw] in Harg.
    injection Harg as Hn Hdesc.
    unfold Create, tfsdk.Get.
    cbn [resource.CreateRequest_Plan tfsdk.Raw tfsdk.GetDiags].
    rewrite Hn, Hdesc. reflexivity.
  - unfold readArgument in Harg.
    cbn [resource.ReadRequest_State tfsdk.Raw] in Harg.
    unfold Read, tfsdk.Get.
    cbn [resource.ReadRequest_State tfsdk.Raw tfsdk.GetDiags].
    rewrite Harg. reflexivity.
  - unfold updateArgument in Harg.
    cbn [resource.UpdateRequest_Plan tfsdk.Raw] in Harg.
    injection Harg as Hu Hn Hdesc.
    unfold Update, tfsdk.Get.
    cbn [resource.UpdateRequest_Plan tfsdk.Raw tfsdk.GetDiags].
    rewrite Hu, Hn, Hdesc. reflexivity.
  - unfold deleteArgument in Harg.
    cbn [resource.DeleteRequest_State tfsdk.Raw] in Harg.
    unfold Delete, tfsdk.Get.
    cbn [resource.DeleteRequest_State tfsdk.Raw tfsdk.GetDiags].
    rewrite Harg. reflexivity.
Qed.

Lemma Count_composite (u : string) :
  strings.Count ("vaults/" ++ u) "/" = S (strings.Count u "/").
Proof. reflexivity. Qed.

Lemma decompose_compose_any (u : string) :
  vaultUUIDFromTerraformID ("vaults/" ++ u)
  = if Nat.eqb (strings.Count u "/") 0 then u else "".
Proof.
  destruct (Nat.eqb_spec (strings.Count u "/") 0) as [E|E].
  - now apply decompose_compose.
  - apply vaultUUIDFromTerraformID_malformed. rewrite Count_composite. lia.
Qed.


(** X12: [Create] followed by the orchestrator's refresh. When the created
    vault's [ID] holds no ["/"], the refresh asks the remote for exactly
    that [ID], and the row it writes is the row of the vault the remote
    then returns: the row [Create] wrote when the remote returns the
    created vault again. Two remote calls are made in all. *)
Theorem Create_then_refresh r c req resp w created rem seen rem' :
  client r = Some c ->
  diag.HasError
    (resource.Diagnostics (decoded resp (resource.CreateRequest_Plan req)))
  = false ->
  CreateVault c (createArgument req) (remote w) = (inl created, rem) ->
  strings.Count (model.ID created) "/" = 0 ->
  GetVault c (model.ID created) rem = (inl seen, rem') ->
  bind (Create Error r req resp) (refresh Error isNotFoundError r) w
  = Some ({| resource.State := Some (vaultRow seen);
             resource.Diagnostics := [] |},
          {| remote := rem';
             calls := (calls w
                       ++ [CallCreateVault (createArgument req);
                           CallGetVault (model.ID created)])%list |})
  /\ (seen = created ->
      exists resp1 w1,
        Create Error r req resp w = Some (resp1, w1)
        /\ resource.State resp1 = Some (vaultRow seen)).
Proof.
  intros Hc Hd Hr Hslash Hget.
  pose proof (@Create_ok _ Error _ r c req resp w created rem Hc Hd Hr) as E.
  split.
  - unfold bind. rewrite E. unfold refresh.
    erewrite Read_ok; [|exact Hc|reflexivity|].
    + unfold resource.WithState, decoded. simpl.
      rewrite <- app_assoc. simpl.
      unfold readArgument, stateData. simpl. unfold vaultTerraformID.
      now rewrite (decompose_compose _ Hslash).
    + unfold readArgument, stateData. simpl. unfold vaultTerraformID.
      rewrite (decompose_compose _ Hslash). exact Hget.
  - intros ->. eexists _, _. split; [exact E|reflexivity].
Qed.

(** X13: [ImportState] followed by the orchestrator's refresh. With an
    import key [k] that holds no ["/"], the refresh asks the remote for [k]
    and, when the remote returns a vault, all four attributes of the row
    are known and are those of that vault. With a key that holds a ["/"],
    the refresh asks the remote for the vault [""] instead. *)
Theorem Import_then_refresh r c k resp w :
  client r = Some c ->
  (forall vault rem,
      strings.Count k "/" = 0 ->
      GetVault c k (remote w) = (inl vault, rem) ->
      bind (ImportState r {| resource.ImportStateRequest_ID := k |} resp)
        (refresh Error isNotFoundError r) w
      = Some ({| resource.State := Some (vaultRow vault);
                 resource.Diagnostics := [] |},
              {| remote := rem;
                 calls := (calls w ++ [CallGetVault k])%list |}))
  /\ (forall resp' w',
        strings.Count k "/" <> 0 ->
        bind (ImportState r {| resource.ImportStateRequest_ID := k |} resp)
          (refresh Error isNotFoundError r) w
        = Some (resp', w') ->
        calls w' = (calls w ++ [CallGetVault ""])%list).
Proof.
  intros Hc. split.
  - intros vault rem Hslash Hget.
    unfold bind. rewrite ImportState_eq. unfold refresh.
    erewrite Read_ok; [|exact Hc|reflexivity|].
    + unfold readArgument, stateData.
      cbn [resource.State resource.ReadRequest_State tfsdk.Raw rowOf ID
             types.ValueString resource.ImportStateRequest_ID].
      rewrite decompose_compose_any, Hslash. reflexivity.
    + unfold readArgument, stateData.
      cbn [resource.State resource.ReadRequest_State tfsdk.Raw rowOf ID
             types.ValueString resource.ImportStateRequest_ID].
      rewrite decompose_compose_any, Hslash. exact Hget.
  - intros resp' w' Hslash H.
    unfold bind in H. rewrite ImportState_eq in H. unfold refresh in H.
    apply Read_inv in H.
    destruct H as [(Hd & _)|(c' & rem & _ & _ & -> & _)];
      [discriminate Hd|].
    unfold readArgument, stateData.
    cbn [resource.State resource.ReadRequest_State tfsdk.Raw rowOf ID
           types.ValueString resource.ImportStateRequest_ID calls].
    rewrite decompose_compose_any.
    destruct (Nat.eqb_spec (strings.Count k "/") 0); [contradiction|reflexivity].
Qed.

Lemma AddError_relays resp (d : tfsdk.Data) (title detail sub : string) :
  diag.HasError (resource.Diagnostics (decoded resp d)) = false ->
  IsInfix sub detail ->
  exists e,
    In e (resource.Diagnostics
            (resource.AddError (decoded resp d) title detail))
    /\ diag.isError e = true
    /\ diag.Summary e = title
    /\ IsInfix sub (diag.Detail e).
Proof.
  intros Hd Hin. exists (diag.NewErrorDiagnostic title detail).
  unfold resource.AddError. cbn [resource.Diagnostics].
  rewrite AddError_error_free by exact Hd.
  split; [apply in_or_app; right; now left|]. now repeat split.
Qed.

(** X14: what the acceptance test expects of a backend that refuses to
    manage vaults. Whatever text the error of the refused [CreateVault],
    [UpdateVault] or [DeleteVault] call contains (the test looks for "not
    supported with 1Password Connect"), the response of the handler holds
    an error diagnostic with the handler's title whose detail contains that
    text. *)
Theorem refusal_text_reaches_diagnostics r c resp w err rem (text : string) :
  client r = Some c ->
  IsInfix text (Error err) ->
  (forall req,
      diag.HasError
        (resource.Diagnostics (decoded resp (resource.CreateRequest_Plan req)))
      = false ->
      CreateVault c (createArgument req) (remote w) = (inr err, rem) ->
      exists resp' w' e,
        Create Error r req resp w = Some (resp', w')
        /\ In e (resource.Diagnostics resp')
        /\ diag.isError e = true
        /\ diag.Summary e = "1Password Vault create error"
        /\ IsInfix text (diag.Detail e))
  /\ (forall req,
        diag.HasError
          (resource.Diagnostics (decoded resp (resource.UpdateRequest_Plan req)))
        = false ->
        UpdateVault c (updateArgument req) (remote w) = (inr err, rem) ->
        exists resp' w' e,
          Update Error r req resp w = Some (resp', w')
          /\ In e (resource.Diagnostics resp')
          /\ diag.isError e = true
          /\ diag.Summary e = "1Password Vault update error"
          /\ IsInfix text (diag.Detail e))
  /\ (forall req,
        diag.HasError
          (resource.Diagnostics
             (decoded resp (resource.DeleteRequest_State req)))
        = false ->
        DeleteVault c (deleteArgument req) (remote w) = (Some err, rem) ->
        exists resp' w' e,
          Delete Error r req resp w = Some (resp', w')
          /\ In e (resource.Diagnostics resp')
          /\ diag.isError e = true
          /\ diag.Summary e = "1Password Vault delete error"
          /\ IsInfix text (diag.Detail e)).
Proof.
  intros Hc Htext. split; [|split]; intros req Hd Hr.
  - rewrite (@Create_error _ Error _ r c req resp w err rem Hc Hd Hr).
    assert (Hin : IsInfix text
                    ("Error creating 1Password vault, got error: "
                     ++ Error err))
      by (eapply IsInfix_trans; [exact Htext|apply IsInfix_suffix]).
    destruct (@AddError_relays resp (resource.CreateRequest_Plan req)
                "1Password Vault create error" _ text Hd Hin) as (e & He).
    eexists _, _, e. split; [reflexivity|exact He].
  - rewrite (@Update_error _ Error _ r c req resp w err rem Hc Hd Hr).
    assert (Hin : IsInfix text
                    ("Could not update vault '"
                     ++ types.ValueString
                          (UUID (tfsdk.Raw (resource.UpdateRequest_Plan req)))
                     ++ "', got error: " ++ Error err))
      by (eapply IsInfix_trans;
          [exact Htext|do 2 apply IsInfix_app_l; apply IsInfix_suffix]).
    destruct (@AddError_relays resp (resource.UpdateRequest_Plan req)
                "1Password Vault update error" _ text Hd Hin) as (e & He).
    eexists _, _, e. split; [reflexivity|exact He].
  - rewrite (@Delete_error _ Error _ r c req resp w err rem Hc Hd Hr).
    assert (Hin : IsInfix text
                    ("Could not delete vault '" ++ deleteArgument req
                     ++ "', got error: " ++ Error err))
      by (eapply IsInfix_trans;
          [exact Htext|do 2 apply IsInfix_app_l; apply IsInfix_suffix]).
    destruct (@AddError_relays resp (resource.DeleteRequest_State req)
                "1Password Vault delete error" _ text Hd Hin) as (e & He).
    eexists _, _, e. split; [reflexivity|exact He].
Qed.

(** X15: every handler keeps the state well formed on each of its paths,
    failures included: started on a state that holds no row or a row with
    [id == "vaults/" + uuid], [Create], [Read], [Update] and [Delete] end
    on such a state, and [ImportState] ends on one whatever it started
    from. *)
Theorem handlers_keep_state_invariant r resp w resp' w' :
  stateInvariant (resource.State resp) = true ->
  (forall req,
      Create Error r req resp w = Some (resp', w') ->
      stateInvariant (resource.State resp') = true)
  /\ (forall req,
        Read Error isNotFoundError r req resp w = Some (resp', w') ->
        stateInvariant (resource.State resp') = true)
  /\ (forall req,
        Update Error r req resp w = Some (resp', w') ->
        stateInvariant (resource.State resp') = true)
  /\ (forall req,
        Delete Error r req resp w = Some (resp', w') ->
        stateInvariant (resource.State resp') = true)
  /\ (forall req any_resp,
        ImportState r req any_resp w = Some (resp', w') ->
        stateInvariant (resource.State resp') = true).
Proof.
  intros Hinv. split; [|split; [|split; [|split]]].
  - intros req H. eapply Create_keeps_invariant; eassumption.
  - intros req H. eapply Read_keeps_invariant; eassumption.
  - intros req H. eapply Update_keeps_invariant; eassumption.
  - intros req H. erewrite Delete_keeps_state; eassumption.
  - intros req any_resp H.
    eapply ImportState_establishes_invariant; eassumption.
Qed.


Lemma configured_Create_returns r cl req resp w :
  client r = Some cl -> Create Error r req resp w <> None.
Proof.
  intros Hcl H.
  assert (E : client r = None
              /\ diag.HasError
                   (resource.Diagnostics
                      (decoded resp (resource.CreateRequest_Plan req)))
                 = false) by returns H.
  destruct E as [E _]. congruence.
Qed.

Lemma configured_Read_returns r cl req resp w :
  client r = Some cl -> Read Error isNotFoundError r req resp w <> None.
Proof.
  intros Hcl H.
  assert (E : client r = None
              /\ diag.HasError
                   (resource.Diagnostics
                      (decoded resp (resource.ReadRequest_State req)))
                 = false) by returns H.
  destruct E as [E _]. congruence.
Qed.

Lemma configured_Update_returns r cl req resp w :
  client r = Some cl -> Update Error r req resp w <> None.
Proof.
  intros Hcl H.
  assert (E : client r = None
              /\ diag.HasError
                   (resource.Diagnostics
                      (decoded resp (resource.UpdateRequest_Plan req)))
                 = false) by returns H.
  destruct E as [E _]. congruence.
Qed.

Lemma configured_Delete_returns r cl req resp w :
  client r = Some cl -> Delete Error r req resp w <> None.
Proof.
  intros Hcl H.
  assert (E : client r = None
              /\ diag.HasError
                   (resource.Diagnostics
                      (decoded resp (resource.DeleteRequest_State req)))
                 = false) by returns H.
  destruct E as [E _]. congruence.
Qed.

(** X3: [Configure] never unsets the client. A resource that has a client
    keeps one, whatever provider data it is configured with again; and a
    new resource ends up with the client [c] exactly when the provider
    data is [c]; from then on [Create], [Read], [Update] and [Delete]
    return on every request. *)
Theorem Configure_keeps_client r (req : ConfigureRequest error Remote)
  (cresp : resource.ConfigureResponse) :
  (client r <> None -> client (fst (Configure r req cresp)) <> None)
  /\ (forall c,
        client (fst (Configure (NewOnePasswordVaultResource error Remote)
                       req cresp)) = Some c
        <-> ProviderData req = any_Client c)
  /\ (forall c resp w,
        ProviderData req = any_Client c ->
        (forall hreq,
            Create Error (fst (Configure r req cresp)) hreq resp w <> None)
        /\ (forall hreq,
              Read Error isNotFoundError (fst (Configure r req cresp))
                hreq resp w <> None)
        /\ (forall hreq,
              Update Error (fst (Configure r req cresp)) hreq resp w <> None)
        /\ (forall hreq,
              Delete Error (fst (Configure r req cresp)) hreq resp w <> None)).
Proof.
  split; [|split].
  - unfold Configure. destruct (ProviderData req); simpl; auto; discriminate.
  - intros c. unfold Configure, NewOnePasswordVaultResource.
    destruct (ProviderData req) as [|c'|T]; simpl;
      split; intros H; try discriminate; now injection H as ->.
  - intros c resp w Hpd.
    assert (Hcl : client (fst (Configure r req cresp)) = Some c)
      by (unfold Configure; now rewrite Hpd).
    split; [|split; [|split]]; intros hreq.
    + eapply configured_Create_returns; exact Hcl.
    + eapply configured_Read_returns; exact Hcl.
    + eapply configured_Update_returns; exact Hcl.
    + eapply configured_Delete_returns; exact Hcl.
Qed.


End FurtherHandlerProperties.

(** ** The further properties on the test double *)


Lemma Configure_keeps_client_witness :
  client (fst (Configure echoResource
                 {| ProviderData := any_other testError nat "string" |}
                 {| resource.ConfigureResponse_Diagnostics := [] |}))
  <> None.
Proof.
  apply (Configure_keeps_client testError_Error testError_isNotFound
           echoResource
           {| ProviderData := any_other testError nat "string" |}
           {| resource.ConfigureResponse_Diagnostics := [] |}).
  discriminate.
Defined.

Lemma handlers_panic_iff_unconfigured_witness :
  Create testError_Error unconfigured createRequest emptyResponse startWorld
  = None
  /\ Create testError_Error unconfigured
       {| resource.CreateRequest_Plan := brokenPlan |} emptyResponse startWorld
     <> None.
Proof.
  destruct (handlers_panic_iff_unconfigured testError_Error
              testError_isNotFound unconfigured emptyResponse startWorld)
    as (Hcreate & _).
  split.
  - apply Hcreate. split; reflexivity.
  - intros H. apply Hcreate in H. destruct H as [_ H]. discriminate H.
Defined.

Lemma decode_error_short_circuits_witness :
  returnsAtOnce
    (Create testError_Error unconfigured
       {| resource.CreateRequest_Plan := brokenPlan |} emptyResponse startWorld)
    emptyResponse brokenPlan startWorld.
Proof.
  destruct (decode_error_short_circuits testError_Error testError_isNotFound
              unconfigured emptyResponse startWorld) as (Hcreate & _).
  apply (Hcreate {| resource.CreateRequest_Plan := brokenPlan |}).
  reflexivity.
Defined.

Lemma handlers_call_remote_at_most_once_witness :
  callsAtMost startWorld createdWorld
    (CallCreateVault (createArgument createRequest)).
Proof.
  destruct (handlers_call_remote_at_most_once testError_Error
              testError_isNotFound echoResource emptyResponse startWorld
              createdResponse createdWorld) as (Hcreate & _).
  apply Hcreate. reflexivity.
Defined.

Lemma handlers_only_add_diagnostics_witness :
  onlyAdds emptyResponse refusedResponse prodPlan.
Proof.
  destruct (handlers_only_add_diagnostics testError_Error
              testError_isNotFound connectResource emptyResponse startWorld
              refusedResponse createdWorld) as (Hcreate & _).
  apply (Hcreate createRequest). reflexivity.
Defined.

Lemma no_error_iff_remote_success_witness :
  diag.HasError (resource.Diagnostics createdResponse) = false
  <-> diag.HasError
        (resource.Diagnostics (decoded emptyResponse prodPlan)) = false
      /\ exists c vault rem,
          client echoResource = Some c
          /\ CreateVault c (createArgument createRequest) (remote startWorld)
             = (inl vault, rem).
Proof.
  destruct (no_error_iff_remote_success testError_Error testError_isNotFound
              echoResource emptyResponse startWorld createdResponse
              createdWorld) as (Hcreate & _).
  apply (Hcreate createRequest). reflexivity.
Defined.

Lemma error_means_state_untouched_witness :
  resource.State refusedResponse = resource.State emptyResponse.
Proof.
  destruct (error_means_state_untouched testError_Error testError_isNotFound
              connectResource emptyResponse startWorld refusedResponse
              createdWorld eq_refl) as (Hcreate & _).
  apply (Hcreate createRequest). reflexivity.
Defined.

Lemma handlers_depend_on_argument_only_witness :
  Create testError_Error echoResource createRequest emptyResponse startWorld
  = Create testError_Error echoResource
      {| resource.CreateRequest_Plan := stalePlan |} emptyResponse startWorld.
Proof.
  destruct (handlers_depend_on_argument_only testError_Error
              testError_isNotFound echoResource emptyResponse startWorld)
    as (Hcreate & _).
  apply Hcreate; reflexivity.
Defined.


Lemma Create_then_refresh_witness :
  bind (Create testError_Error echoResource createRequest emptyResponse)
    (refresh testError_Error testError_isNotFound echoResource) startWorld
  = Some (createdResponse,
          {| remote := 2;
             calls := [CallCreateVault (createArgument createRequest);
                       CallGetVault "AAA"] |}).
Proof.
  eapply (Create_then_refresh testError_Error testError_isNotFound
           echoResource createRequest emptyResponse startWorld
           (created := prodVault) (rem := 1) (seen := prodVault) (rem' := 2));
    reflexivity.
Defined.

Lemma Import_then_refresh_witness :
  bind (ImportState echoResource importRequest emptyResponse)
    (refresh testError_Error testError_isNotFound echoResource) startWorld
  = Some (createdResponse,
          {| remote := 1; calls := [CallGetVault "EEE"] |}).
Proof.
  destruct (Import_then_refresh testError_Error testError_isNotFound
              echoResource "EEE" emptyResponse startWorld eq_refl)
    as (Hclean & _).
  apply (Hclean prodVault 1); reflexivity.
Defined.

Lemma refusal_text_reaches_diagnostics_witness :
  exists resp' w' e,
    Create testError_Error connectResource createRequest emptyResponse
      startWorld = Some (resp', w')
    /\ In e (resource.Diagnostics resp')
    /\ diag.isError e = true
    /\ diag.Summary e = "1Password Vault create error"
    /\ IsInfix "not supported with 1Password Connect" (diag.Detail e).
Proof.
  assert (Htext : IsInfix "not supported with 1Password Connect"
                    (testError_Error connectRefusal))
    by (exists "", ""; reflexivity).
  destruct (refusal_text_reaches_diagnostics testError_Error connectResource
              emptyResponse startWorld connectRefusal 1 eq_refl Htext)
    as (Hcreate & _).
  apply (Hcreate createRequest); reflexivity.
Defined.

Lemma handlers_keep_state_invariant_witness :
  stateInvariant (resource.State createdResponse) = true.
Proof.
  destruct (handlers_keep_state_invariant testError_Error testError_isNotFound
              echoResource emptyResponse startWorld createdResponse
              createdWorld eq_refl) as (Hcreate & _).
  apply (Hcreate createRequest). reflexivity.
Defined.


(** The resource block of the acceptance test names the type [Metadata]
    gives for the provider "onepassword". *)
Example test_config_names_the_resource_type :
  TypeName (Metadata unconfigured {| ProviderTypeName := "onepassword" |}
              {| TypeName := "" |})
  = "onepassword_vault"
  /\ IsInfix ("resource " ++ dquote ++ "onepassword_vault" ++ dquote)
       (testAccVaultResourceConfig "Test Vault" "A test vault").
Proof.
  split; [reflexivity|].
  exists newline. eexists. reflexivity.
Qed.
